(** * mon-put-instance-data: a shallow embedding of the metric engine

    The script [bin/mon-put-instance-data.py] samples memory, swap and disk
    usage, expands each sample into CloudWatch data points and memoises
    slow lookups in files.  This development embeds the parts with logic in
    them: the numeric helpers ([MemData], [Disk]), the metric batch
    ([Metrics]), the file cache ([FileCache]) and the request check
    ([validate_args]).

    Conventions of the embedding.
    - Python 2 integers are unbounded: they are [Z].  Python floats are
      IEEE 754 binary64: they are [spec_float] at precision 53.
    - A raised exception is the [Raise] branch of [result]; statements run
      in sequence through the monadic [x ← c; k] notation.
    - A dict is a [gmap]; an object mutated in place is passed and returned.
    - Clock readings and file modification times are integers, in seconds
      like the TTL. *)

From Stdlib Require Import ZArith QArith Lia Ascii.
From Stdlib Require Import Floats.SpecFloat.
From stdpp Require Import gmap strings list fin_maps.

(** ** Exceptions and the error monad *)

(** The exceptions the embedded code can raise.  [UnpicklingError] stands
    for whatever [pickle.load] raises on bytes that are no pickle. *)
Inductive exn : Type :=
  | ZeroDivisionError
  | OverflowError
  | TypeError
  | KeyError (key : string)
  | ValueError (message : string)
  | IOError (message : string)
  | UnpicklingError.

Inductive result (A : Type) : Type :=
  | Ok (a : A)
  | Raise (e : exn).
Arguments Ok {A} a.
Arguments Raise {A} e.

#[global] Instance result_ret : MRet result := fun _ a => Ok a.

#[global] Instance result_bind : MBind result := fun _ _ k c =>
  match c with
  | Ok a => k a
  | Raise e => Raise e
  end.

Definition is_ok {A : Type} (c : result A) : bool :=
  match c with Ok _ => true | Raise _ => false end.

(** ** Python numbers *)

Module Py.

Definition prec : Z := 53.
Definition emax : Z := 1024.

Inductive num : Type :=
  | Int (z : Z)
  | Float (f : spec_float).

(** [float(z)]: the nearest double, ties to even; an integer beyond the
    range of a double raises [OverflowError]. *)
Definition float_of_int (z : Z) : result spec_float :=
  match binary_normalize prec emax z 0 false with
  | S754_infinity _ => Raise OverflowError
  | f => Ok f
  end.

Definition to_float (x : num) : result spec_float :=
  match x with
  | Int z => float_of_int z
  | Float f => Ok f
  end.

Definition is_zero (f : spec_float) : bool :=
  match f with S754_zero _ => true | _ => false end.

(** [a * b] *)
Definition mul (a b : num) : result num :=
  match a, b with
  | Int x, Int y => Ok (Int (x * y))
  | _, _ =>
      x ← to_float a;
      y ← to_float b;
      Ok (Float (SFmul prec emax x y))
  end.

(** [a / b] of Python 2: floor division on two integers, float division
    as soon as one operand is a float; a zero divisor raises. *)
Definition div (a b : num) : result num :=
  match a, b with
  | Int x, Int y =>
      if (y =? 0)%Z then Raise ZeroDivisionError else Ok (Int (x / y))
  | _, _ =>
      x ← to_float a;
      y ← to_float b;
      if is_zero y then Raise ZeroDivisionError
      else Ok (Float (SFdiv prec emax x y))
  end.

(** The literal [100.0]. *)
Definition f100 : spec_float :=
  Eval cbv in binary_normalize prec emax 100 0 false.

(** The exact rational value of a finite double. *)
Definition to_Q (f : spec_float) : option Q :=
  match f with
  | S754_zero _ => Some 0%Q
  | S754_finite s m e =>
      let q := (inject_Z (Z.pos m) * Qpower 2 e)%Q in
      Some (if s then Qopp q else q)
  | _ => None
  end.

(** Truth value of an optional string ([None] and [''] are false). *)
Definition truthy (s : option string) : bool :=
  match s with
  | None => false
  | Some s => negb (String.eqb s "")
  end.

End Py.

(** ** Module constants *)

Definition CLIENT_NAME : string := "CloudWatch-PutInstanceData".
Definition VERSION : string := "2.0.0-beta".

Module SizeUnit.
Record t : Type := { name : string; div : Z }.
End SizeUnit.

Definition SIZE_UNITS_CFG : gmap string SizeUnit.t :=
  <["bytes" := {| SizeUnit.name := "Bytes"; SizeUnit.div := 1 |}]>
  (<["kilobytes" := {| SizeUnit.name := "Kilobytes"; SizeUnit.div := 1024 |}]>
  (<["megabytes" := {| SizeUnit.name := "Megabytes"; SizeUnit.div := 1048576 |}]>
  (<["gigabytes" :=
      {| SizeUnit.name := "Gigabytes"; SizeUnit.div := 1073741824 |}]> ∅))).

(** [os.environ.get(key, default)] with an integer default: the variable,
    when set, comes back as the string it holds. *)
Inductive env_value : Type :=
  | EnvInt (n : Z)
  | EnvStr (s : string).

Definition META_DATA_CACHE_DIR (environ : gmap string string) : string :=
  default "/var/tmp/aws-mon" (environ !! "AWS_EC2CW_META_DATA").

Definition META_DATA_CACHE_TTL (environ : gmap string string) : env_value :=
  match environ !! "AWS_EC2CW_META_DATA_TTL" with
  | Some s => EnvStr s
  | None => EnvInt 21600
  end.

(** [d[k]] on a dict: a missing key raises [KeyError]. *)
Definition getitem {V : Type} (d : gmap string V) (k : string) : result V :=
  match d !! k with
  | Some v => Ok v
  | None => Raise (KeyError k)
  end.

(** ** class MemData *)

Module MemData.

(** The fields set by [__init__]; the six readings are the integers
    parsed from [/proc/meminfo], already multiplied by 1024. *)
Record t : Type := {
  mem_used_incl_cache_buff : bool;
  mem_total : Z;
  mem_free : Z;
  mem_cached : Z;
  mem_buffers : Z;
  swap_total : Z;
  swap_free : Z
}.

(** [MemData.__init__], given the dict that [__gather_mem_info] parsed
    from [/proc/meminfo]. *)
Definition init (mem_used_incl_cache_buff : bool) (mem_info : gmap string Z)
  : result t :=
  mem_total ← getitem mem_info "MemTotal";
  mem_free ← getitem mem_info "MemFree";
  mem_cached ← getitem mem_info "Cached";
  mem_buffers ← getitem mem_info "Buffers";
  swap_total ← getitem mem_info "SwapTotal";
  swap_free ← getitem mem_info "SwapFree";
  Ok {| mem_used_incl_cache_buff := mem_used_incl_cache_buff;
        mem_total := mem_total; mem_free := mem_free;
        mem_cached := mem_cached; mem_buffers := mem_buffers;
        swap_total := swap_total; swap_free := swap_free |}.

Definition mem_avail (self : t) : Z :=
  let mem_avail := mem_free self in
  if negb (mem_used_incl_cache_buff self)
  then (mem_avail + (mem_cached self + mem_buffers self))%Z
  else mem_avail.

Definition mem_used (self : t) : Z :=
  (mem_total self - mem_avail self)%Z.

Definition mem_util (self : t) : result Py.num :=
  p ← Py.mul (Py.Float Py.f100) (Py.Int (mem_used self));
  Py.div p (Py.Int (mem_total self)).

Definition swap_used (self : t) : Z :=
  (swap_total self - swap_free self)%Z.

Definition swap_util (self : t) : result Py.num :=
  if (swap_total self =? 0)%Z then Ok (Py.Int 0)
  else
    p ← Py.mul (Py.Float Py.f100) (Py.Int (swap_used self));
    Py.div p (Py.Int (swap_total self)).

End MemData.

(** ** class Disk *)

Module Disk.

Record t : Type := {
  mount : string;
  file_system : string;
  used : Z;
  avail : Z;
  util : Py.num
}.

(** [Disk.__init__]; the conditional expression evaluates the quotient
    only when [total > 0]. *)
Definition init (mount file_system : string) (total used avail : Z)
  : result t :=
  u ← (if (total >? 0)%Z
       then (p ← Py.mul (Py.Float Py.f100) (Py.Int used);
             Py.div p (Py.Int total))
       else Ok (Py.Int 0));
  Ok {| mount := mount; file_system := file_system;
        used := used; avail := avail; util := u |}.

End Disk.

(** ** class Metrics *)

Module Metrics.

Record t : Type := {
  names : list string;
  units : list string;
  values : list Py.num;
  dimensions : list (gmap string string);
  instance_id : string;
  instance_type : string;
  image_id : string;
  aggregated : option string;
  auto_scaling_group_name : option string
}.

Definition init (instance_id instance_type image_id : string)
    (aggregated auto_scaling_group : option string) : t :=
  {| names := []; units := []; values := []; dimensions := [];
     instance_id := instance_id; instance_type := instance_type;
     image_id := image_id; aggregated := aggregated;
     auto_scaling_group_name := auto_scaling_group |}.

(** [d.items()]: the pairs of a dict, each key once. *)
Definition items (d : gmap string string) : list (string * string) :=
  map_to_list d.

(** [dict(pairs)]: the pairs are stored from left to right, so a later
    pair replaces an earlier one with the same key. *)
Definition dict (pairs : list (string * string)) : gmap string string :=
  foldl (fun d kv => <[kv.1 := kv.2]> d) ∅ pairs.

(** The loop of [__add_metric_dimensions]: one append to each of the
    four lists per element of [dims]. *)
Fixpoint __add_metric_dimensions (self : t) (name unit : string)
    (value : Py.num) (common_dims : gmap string string)
    (dims : list (gmap string string)) : t :=
  match dims with
  | [] => self
  | dim :: dims' =>
      let self' :=
        {| names := names self ++ [name];
           units := units self ++ [unit];
           values := values self ++ [value];
           dimensions :=
             dimensions self ++ [dict (items common_dims ++ items dim)];
           instance_id := instance_id self;
           instance_type := instance_type self;
           image_id := image_id self;
           aggregated := aggregated self;
           auto_scaling_group_name := auto_scaling_group_name self |} in
      __add_metric_dimensions self' name unit value common_dims dims'
  end.

(** The first five lines of [add_metric]. *)
Definition common_dims (mount file_system : option string)
  : gmap string string :=
  let common_dims := ∅ in
  let common_dims :=
    if Py.truthy mount
    then <["MountPath" := default "" mount]> common_dims
    else common_dims in
  let common_dims :=
    if Py.truthy file_system
    then <["Filesystem" := default "" file_system]> common_dims
    else common_dims in
  common_dims.

(** The list [dims] that [add_metric] builds before it loops. *)
Definition dims (self : t) : list (gmap string string) :=
  let dims := [] in
  let dims :=
    if bool_decide (aggregated self ≠ Some "only")
    then dims ++ [{["InstanceId" := instance_id self]}]
    else dims in
  let dims :=
    if Py.truthy (auto_scaling_group_name self)
    then dims ++ [{["AutoScalingGroupName" :=
                      default "" (auto_scaling_group_name self)]}]
    else dims in
  let dims :=
    if Py.truthy (aggregated self)
    then dims ++ [{["InstanceType" := instance_type self]};
                  {["ImageId" := image_id self]};
                  ∅]
    else dims in
  dims.

Definition add_metric (self : t) (name unit : string) (value : Py.num)
    (mount file_system : option string) : t :=
  __add_metric_dimensions self name unit value
    (common_dims mount file_system) (dims self).

(** The data points of a batch, as the submission reads them: the four
    lists side by side. *)
Definition points (self : t)
  : list (string * string * Py.num * gmap string string) :=
  zip (zip (zip (names self) (units self)) (values self)) (dimensions self).

End Metrics.

(** ** class FileCache *)

Module FileCache.

(** What a cache file holds: the pickle of a value, or bytes that
    [pickle.load] rejects. *)
Inductive content (V : Type) : Type :=
  | Pickled (v : V)
  | Garbage.
Arguments Pickled {V} v.
Arguments Garbage {V}.

(** A file of the cache directory: its modification time, its mode
    bits, whether this process may open it (a file left by another user
    with mode 0600 may not be), and what it holds. *)
Record file (V : Type) : Type := {
  mtime : Z;
  mode : Z;
  accessible : bool;
  data : content V
}.
Arguments mtime {V} f.
Arguments mode {V} f.
Arguments accessible {V} f.
Arguments data {V} f.

(** The cache directory, the world the wrapped function talks to, and
    the log of the argument tuples the wrapped function was run on. *)
Record state (V A W : Type) : Type := {
  fs : gmap string (file V);
  world : W;
  invoked : list A
}.
Arguments fs {V A W} s.
Arguments world {V A W} s.
Arguments invoked {V A W} s.

(** [pickle.load] *)
Definition load {V : Type} (c : content V) : result V :=
  match c with
  | Pickled v => Ok v
  | Garbage => Raise UnpicklingError
  end.

Definition EACCES : exn := IOError "Permission denied".

(** [with open(filename, 'rb') as f: return pickle.load(f)] *)
Definition read {V : Type} (f : file V) : result V :=
  if accessible f then load (data f) else Raise EACCES.

(** Whether [open(filename, 'wb')] succeeds: it creates a missing file
    and truncates one this process may open. *)
Definition can_write {V : Type} (f : option (file V)) : bool :=
  match f with
  | Some f => accessible f
  | None => true
  end.

Fixpoint ends_with_slash (s : string) : bool :=
  match s with
  | EmptyString => false
  | String c EmptyString => bool_decide (c = "/"%char)
  | String _ s' => ends_with_slash s'
  end.

(** [os.path.join(a, p)] for a relative [p]. *)
Definition path_join (a p : string) : string :=
  if bool_decide (a = "") || ends_with_slash a then a +:+ p
  else a +:+ "/" +:+ p.

Section Call.
Context {V A W : Type}.
(** The process environment and [hashlib.md5(_).hexdigest()]. *)
Variable environ : gmap string string.
Variable md5_hexdigest : string -> string.
(** The wrapped function: its [__name__], how [str] prints its
    positional and keyword arguments, and what running it does. *)
Variable fnc_name : string.
Variable str_args str_kwargs : A -> string.
Variable fnc : A -> W -> result V * W.

Definition sig (a : A) : string :=
  fnc_name +:+ ":" +:+ str_args a +:+ ":" +:+ str_kwargs a.

Definition filename (a : A) : string :=
  path_join (META_DATA_CACHE_DIR environ)
    (CLIENT_NAME +:+ "-" +:+ md5_hexdigest (sig a) +:+ ".bin").

(** The cache miss: run the wrapped function, then write the file
    with mode 0600 (384).  The three steps of the write, [open],
    [os.chmod] and [pickle.dump], are one step here: it fails as a whole
    when [open] is refused, and there is no state in which the file was
    truncated and [os.chmod] or [pickle.dump] failed afterwards. *)
Definition recompute (now : Z) (a : A) (s : state V A W)
  : result V * state V A W :=
  let '(r, w) := fnc a (world s) in
  match r with
  | Raise e =>
      (Raise e,
       {| fs := fs s; world := w; invoked := invoked s ++ [a] |})
  | Ok tmp =>
      if can_write (fs s !! filename a)
      then (Ok tmp,
            {| fs := <[filename a :=
                        {| mtime := now; mode := 384; accessible := true;
                           data := Pickled tmp |}]>
                     (fs s);
               world := w; invoked := invoked s ++ [a] |})
      else (Raise EACCES,
            {| fs := fs s; world := w; invoked := invoked s ++ [a] |})
  end.

(** [FileCache.__call__] at clock reading [now]. *)
Definition call (now : Z) (a : A) (s : state V A W)
  : result V * state V A W :=
  match fs s !! filename a with
  | Some f =>
      match META_DATA_CACHE_TTL environ with
      | EnvStr _ => (Raise TypeError, s)
      | EnvInt ttl =>
          if (mtime f + ttl >? now)%Z then (read f, s)
          else recompute now a s
      end
  | None => recompute now a s
  end.

End Call.

End FileCache.

(** ** The parsed command line *)

Module Namespace.

Record t : Type := {
  mem_util : bool;
  mem_used : bool;
  mem_avail : bool;
  swap_util : bool;
  swap_used : bool;
  mem_used_incl_cache_buff : bool;
  memory_units : string;
  disk_path : option (list string);
  disk_space_util : bool;
  disk_space_used : bool;
  disk_space_avail : bool;
  disk_space_units : string;
  from_cron : bool;
  verbose : bool;
  aggregated : option string;
  auto_scaling : option string;
  verify : bool;
  version : bool
}.

End Namespace.

(** ** add_memory_metrics and add_disk_metrics *)

(** [if flag: metrics.add_metric(name, unit, value, ...)], where computing
    [value] may raise. *)
Definition add_if (flag : bool) (metrics : Metrics.t) (name unit : string)
    (value : result Py.num) (mount file_system : option string)
  : result Metrics.t :=
  if flag
  then v ← value; Ok (Metrics.add_metric metrics name unit v mount file_system)
  else Ok metrics.

Definition add_memory_metrics (mem_info : gmap string Z) (args : Namespace.t)
    (metrics : Metrics.t) : result Metrics.t :=
  mem ← MemData.init (Namespace.mem_used_incl_cache_buff args) mem_info;
  cfg ← getitem SIZE_UNITS_CFG (Namespace.memory_units args);
  let mem_unit_name := SizeUnit.name cfg in
  mem_unit_div ← Py.float_of_int (SizeUnit.div cfg);
  metrics ← add_if (Namespace.mem_util args) metrics
    "MemoryUtilization" "Percent" (MemData.mem_util mem) None None;
  metrics ← add_if (Namespace.mem_used args) metrics
    "MemoryUsed" mem_unit_name
    (Py.div (Py.Int (MemData.mem_used mem)) (Py.Float mem_unit_div))
    None None;
  metrics ← add_if (Namespace.mem_avail args) metrics
    "MemoryAvailable" mem_unit_name
    (Py.div (Py.Int (MemData.mem_avail mem)) (Py.Float mem_unit_div))
    None None;
  metrics ← add_if (Namespace.swap_util args) metrics
    "SwapUtilization" "Percent" (MemData.swap_util mem) None None;
  add_if (Namespace.swap_used args) metrics
    "SwapUsed" mem_unit_name
    (Py.div (Py.Int (MemData.swap_used mem)) (Py.Float mem_unit_div))
    None None.

(** The body of the loop of [add_disk_metrics]. *)
Definition add_one_disk (args : Namespace.t) (disk_unit_name : string)
    (disk_unit_div : spec_float) (metrics : Metrics.t) (disk : Disk.t)
  : result Metrics.t :=
  let mount := Some (Disk.mount disk) in
  let file_system := Some (Disk.file_system disk) in
  metrics ← add_if (Namespace.disk_space_util args) metrics
    "DiskSpaceUtilization" "Percent" (Ok (Disk.util disk)) mount file_system;
  metrics ← add_if (Namespace.disk_space_used args) metrics
    "DiskSpaceUsed" disk_unit_name
    (Py.div (Py.Int (Disk.used disk)) (Py.Float disk_unit_div))
    mount file_system;
  add_if (Namespace.disk_space_avail args) metrics
    "DiskSpaceAvailable" disk_unit_name
    (Py.div (Py.Int (Disk.avail disk)) (Py.Float disk_unit_div))
    mount file_system.

Fixpoint for_each_disk (args : Namespace.t) (disk_unit_name : string)
    (disk_unit_div : spec_float) (metrics : Metrics.t) (disks : list Disk.t)
  : result Metrics.t :=
  match disks with
  | [] => Ok metrics
  | disk :: disks' =>
      metrics ← add_one_disk args disk_unit_name disk_unit_div metrics disk;
      for_each_disk args disk_unit_name disk_unit_div metrics disks'
  end.

(** [add_disk_metrics], given the list that [get_disk_info] returned. *)
Definition add_disk_metrics (disks : list Disk.t) (args : Namespace.t)
    (metrics : Metrics.t) : result Metrics.t :=
  cfg ← getitem SIZE_UNITS_CFG (Namespace.disk_space_units args);
  let disk_unit_name := SizeUnit.name cfg in
  disk_unit_div ← Py.float_of_int (SizeUnit.div cfg);
  for_each_disk args disk_unit_name disk_unit_div metrics disks.

(** ** validate_args *)

Definition MSG_NO_DISK_METRICS : string :=
  "Disk path is provided but metrics to report disk space are not specified.".

Definition MSG_NO_DISK_PATH : string :=
  "Metrics to report disk space are provided but disk path is not specified.".

Definition MSG_BAD_PATH (path : string) : string :=
  "Disk file path " +:+ path +:+ " does not exist or cannot be accessed.".

Definition MSG_NO_METRICS : string :=
  "No metrics specified for collection and submission to CloudWatch.".

(** The loop over [args.disk_path]; [isdir] is [os.path.isdir]. *)
Fixpoint check_paths (isdir : string -> bool) (paths : list string)
  : result unit :=
  match paths with
  | [] => Ok tt
  | path :: paths' =>
      if negb (isdir path) then Raise (ValueError (MSG_BAD_PATH path))
      else check_paths isdir paths'
  end.

Definition validate_args (isdir : string -> bool) (args : Namespace.t)
  : result (bool * bool) :=
  let report_mem_data :=
    Namespace.mem_util args || Namespace.mem_used args
    || Namespace.mem_avail args || Namespace.swap_util args
    || Namespace.swap_used args in
  let report_disk_data := bool_decide (Namespace.disk_path args ≠ None) in
  _ ← (if report_disk_data then
         _ ← (if negb (Namespace.disk_space_util args)
                 && negb (Namespace.disk_space_used args)
                 && negb (Namespace.disk_space_avail args)
              then Raise (ValueError MSG_NO_DISK_METRICS)
              else Ok tt);
         check_paths isdir (default [] (Namespace.disk_path args))
       else if Namespace.disk_space_util args
               || Namespace.disk_space_used args
               || Namespace.disk_space_avail args
       then Raise (ValueError MSG_NO_DISK_PATH)
       else Ok tt);
  _ ← (if negb report_mem_data && negb report_disk_data
       then Raise (ValueError MSG_NO_METRICS)
       else Ok tt);
  Ok (report_disk_data, report_mem_data).

(** A message mentions a phrase when the phrase occurs in it. *)
Fixpoint mentions (phrase message : string) : bool :=
  String.prefix phrase message
  || match message with
     | EmptyString => false
     | String _ rest => mentions phrase rest
     end.

(** ** get_metadata, the cached lookup of the instance metadata *)

(** The wrapped function; the world it reads is the answer of the
    metadata service, an empty dict when the service gives none. *)
Definition get_metadata (_ : unit) (service : gmap string string)
  : result (gmap string string) * gmap string string :=
  let metadata := service in
  if bool_decide (metadata = ∅)
  then (Raise (ValueError "Cannot obtain EC2 metadata."), service)
  else (Ok metadata, service).

(** The MD5 digest of the one signature that [get_metadata] is called
    with, ['get_metadata:():{}']; other strings are not needed. *)
Definition md5_table (s : string) : string :=
  if bool_decide (s = "get_metadata:():{}")
  then "6af9ce6315cfe8abe5c96ac378c77034"
  else "".

(** [get_metadata] behind [@FileCache], with no variable set in the
    environment. *)
Definition cached_get_metadata (now : Z)
    (s : FileCache.state (gmap string string) unit (gmap string string))
  : result (gmap string string)
    * FileCache.state (gmap string string) unit (gmap string string) :=
  FileCache.call ∅ md5_table "get_metadata" (fun _ => "()") (fun _ => "{}")
    get_metadata now tt s.

Definition metadata_file : string :=
  "/var/tmp/aws-mon/CloudWatch-PutInstanceData-6af9ce6315cfe8abe5c96ac378c77034.bin".

(** ** Vocabulary of the properties *)

(** The entry that a cache miss writes. *)
Definition written {V : Type} (now : Z) (v : V) : FileCache.file V :=
  {| FileCache.mtime := now; FileCache.mode := 384;
     FileCache.accessible := true; FileCache.data := FileCache.Pickled v |}.

(** The state in which the file [name] is [entry], or is missing. *)
Definition set_entry {V A W : Type} (name : string)
    (entry : option (FileCache.file V)) (s : FileCache.state V A W)
  : FileCache.state V A W :=
  {| FileCache.fs := partial_alter (fun _ => entry) name (FileCache.fs s);
     FileCache.world := FileCache.world s;
     FileCache.invoked := FileCache.invoked s |}.

(** What opening and unpickling a file raises, if anything. *)
Definition read_error {V : Type} (f : FileCache.file V) : option exn :=
  if FileCache.accessible f
  then match FileCache.data f with
       | FileCache.Garbage => Some UnpicklingError
       | FileCache.Pickled _ => None
       end
  else Some FileCache.EACCES.

(** What a call added to one of the four lists of a batch. *)
Definition appended {X : Type} (before after : list X) : list X :=
  drop (length before) after.

(** One [add_metric] call after another on the same batch. *)
Definition add_all (self : Metrics.t)
    (calls : list (string * string * Py.num * option string * option string))
  : Metrics.t :=
  foldl (fun m '(name, unit, value, mount, file_system) =>
           Metrics.add_metric m name unit value mount file_system)
        self calls.

(** The four lists of a batch run in parallel. *)
Definition parallel (self : Metrics.t) : Prop :=
  length (Metrics.units self) = length (Metrics.names self)
  /\ length (Metrics.values self) = length (Metrics.names self)
  /\ length (Metrics.dimensions self) = length (Metrics.names self).

(** The literal [6300.0]. *)
Definition f6300 : spec_float :=
  Eval cbv in binary_normalize Py.prec Py.emax 6300 0 false.

(** Some disk-space flag is set; some memory or swap flag is set. *)
Definition disk_flag (args : Namespace.t) : bool :=
  Namespace.disk_space_util args || Namespace.disk_space_used args
  || Namespace.disk_space_avail args.

Definition memory_flag (args : Namespace.t) : bool :=
  Namespace.mem_util args || Namespace.mem_used args
  || Namespace.mem_avail args || Namespace.swap_util args
  || Namespace.swap_used args.

(** A cache file of [get_metadata] that holds garbage. *)
Definition garbage_state
  : FileCache.state (gmap string string) unit (gmap string string) :=
  {| FileCache.fs :=
       {[metadata_file :=
           {| FileCache.mtime := 0; FileCache.mode := 384;
              FileCache.accessible := true;
              FileCache.data := FileCache.Garbage |}]};
     FileCache.world := {["instance-id" := "i-0abc"]};
     FileCache.invoked := [] |}.

(** Three requests: a path that is no directory and no disk-space flag; a
    disk-space flag alone; the path [/data] with [--disk-space-util]. *)
Definition args_bad_path : Namespace.t :=
  {| Namespace.mem_util := false; Namespace.mem_used := false;
     Namespace.mem_avail := false; Namespace.swap_util := false;
     Namespace.swap_used := false;
     Namespace.mem_used_incl_cache_buff := false;
     Namespace.memory_units := "megabytes";
     Namespace.disk_path := Some ["/nonexistent"];
     Namespace.disk_space_util := false;
     Namespace.disk_space_used := false;
     Namespace.disk_space_avail := false;
     Namespace.disk_space_units := "gigabytes";
     Namespace.from_cron := false; Namespace.verbose := false;
     Namespace.aggregated := None; Namespace.auto_scaling := None;
     Namespace.verify := false; Namespace.version := false |}.

Definition args_disk_flag_only : Namespace.t :=
  {| Namespace.mem_util := false; Namespace.mem_used := false;
     Namespace.mem_avail := false; Namespace.swap_util := false;
     Namespace.swap_used := false;
     Namespace.mem_used_incl_cache_buff := false;
     Namespace.memory_units := "megabytes";
     Namespace.disk_path := None;
     Namespace.disk_space_util := true;
     Namespace.disk_space_used := false;
     Namespace.disk_space_avail := false;
     Namespace.disk_space_units := "gigabytes";
     Namespace.from_cron := false; Namespace.verbose := false;
     Namespace.aggregated := None; Namespace.auto_scaling := None;
     Namespace.verify := false; Namespace.version := false |}.

Definition args_data_util : Namespace.t :=
  {| Namespace.mem_util := false; Namespace.mem_used := false;
     Namespace.mem_avail := false; Namespace.swap_util := false;
     Namespace.swap_used := false;
     Namespace.mem_used_incl_cache_buff := false;
     Namespace.memory_units := "megabytes";
     Namespace.disk_path := Some ["/data"];
     Namespace.disk_space_util := true;
     Namespace.disk_space_used := false;
     Namespace.disk_space_avail := false;
     Namespace.disk_space_units := "gigabytes";
     Namespace.from_cron := false; Namespace.verbose := false;
     Namespace.aggregated := None; Namespace.auto_scaling := None;
     Namespace.verify := false; Namespace.version := false |}.

(** ** Strings of Python 2 *)

Module Str.

(** [c.isspace()] and [c.isdigit()] on a byte: blank, tab, line feed,
    vertical tab, form feed and carriage return; [0] to [9]. *)
Definition isspace (c : ascii) : bool :=
  let n := N_of_ascii c in
  (n =? 32)%N || ((9 <=? n)%N && (n <=? 13)%N).

Definition isdigit (c : ascii) : bool :=
  let n := N_of_ascii c in
  (48 <=? n)%N && (n <=? 57)%N.

Definition notspace (c : ascii) : bool := negb (isspace c).

(** The number that a run of decimal digits writes, with [acc] the
    value of the digits read before; [None] on another character. *)
Fixpoint digits_value (acc : Z) (s : string) : option Z :=
  match s with
  | EmptyString => Some acc
  | String c s' =>
      if isdigit c
      then digits_value (10 * acc + (Z.of_N (N_of_ascii c) - 48))%Z s'
      else None
  end.

Definition unsigned (s : string) : option Z :=
  match s with
  | EmptyString => None
  | _ => digits_value 0 s
  end.

(** The text of the [ValueError] of [int]; it quotes the string the way
    [repr] prints a string of plain characters. *)
Definition invalid_literal (s : string) : string :=
  "invalid literal for int() with base 10: '" +:+ s +:+ "'".

(** [int(s)] for a string without white space, which is what the code
    passes: a token of [split()] or the digits of a regular expression.
    An optional sign and at least one digit. *)
Definition int (s : string) : result Z :=
  let number :=
    match s with
    | String "-" ds => Z.opp <$> unsigned ds
    | String "+" ds => unsigned ds
    | _ => unsigned s
    end in
  match number with
  | Some n => Ok n
  | None => Raise (ValueError (invalid_literal s))
  end.

(** [s.split()]: the maximal runs of characters that are no white
    space, in order; [word] is the run being read. *)
Fixpoint split_go (word : string) (s : string) : list string :=
  match s with
  | EmptyString =>
      match word with
      | EmptyString => []
      | _ => [word]
      end
  | String c s' =>
      if isspace c
      then match word with
           | EmptyString => split_go "" s'
           | _ => word :: split_go "" s'
           end
      else split_go (word +:+ String c "") s'
  end.

Definition split (s : string) : list string := split_go "" s.

(** [s.splitlines()]: a line ends at a line feed, a carriage return or
    a carriage return with its line feed; what follows the last line end
    is a line when it is not empty. *)
Fixpoint splitlines_go (line : string) (s : string) : list string :=
  match s with
  | EmptyString =>
      match line with
      | EmptyString => []
      | _ => [line]
      end
  | String "010" s' => line :: splitlines_go "" s'
  | String "013" (String "010" s') => line :: splitlines_go "" s'
  | String "013" s' => line :: splitlines_go "" s'
  | String c s' => splitlines_go (line +:+ String c "") s'
  end.

Definition splitlines (s : string) : list string := splitlines_go "" s.

(** [sep.join(words)] *)
Fixpoint join (sep : string) (words : list string) : string :=
  match words with
  | [] => ""
  | [word] => word
  | word :: words' => word +:+ sep +:+ join sep words'
  end.

End Str.

(** ** Regular expressions, as far as the pattern of [/proc/meminfo] goes *)

Module Re.

(** [class*] followed by the rest [k] of a pattern, matched the way [re]
    does: the longest run first, then shorter and shorter ones until the
    rest matches.  [taken] is the run consumed so far. *)
Fixpoint star {R : Type} (class : ascii -> bool) (s taken : string)
    (k : string -> string -> option R) : option R :=
  match s with
  | String c s' =>
      if class c
      then match star class s' (taken +:+ String c "") k with
           | Some r => Some r
           | None => k taken s
           end
      else k taken s
  | EmptyString => k taken s
  end.

(** A literal: what is left of [s] after it. *)
Fixpoint lit (literal s : string) : option string :=
  match literal with
  | EmptyString => Some s
  | String a literal' =>
      match s with
      | String b s' => if Ascii.eqb a b then lit literal' s' else None
      | EmptyString => None
      end
  end.

End Re.

(** [pattern.match(line)] for the pattern of [__gather_mem_info]: from the
    start of the line, a group [key] of characters that are no white
    space, a colon, white space, a group [value] of digits, white space
    and [kB]; every run is as long as the rest allows.  The result is the
    pair of the two groups. *)
Definition meminfo_pattern (line : string) : option (string * string) :=
  Re.star Str.notspace line "" (fun key s1 =>
    s2 ← Re.lit ":" s1;
    Re.star Str.isspace s2 "" (fun _ s3 =>
      Re.star Str.isdigit s3 "" (fun value s4 =>
        Re.star Str.isspace s4 "" (fun _ s5 =>
          _ ← Re.lit "kB" s5;
          Some (key, value))))).

(** The loop of [MemData.__gather_mem_info] over the lines of
    [/proc/meminfo], each with its line end. *)
Fixpoint gather_lines (lines : list string) (meminfo : gmap string Z)
  : result (gmap string Z) :=
  match lines with
  | [] => Ok meminfo
  | line :: lines' =>
      match meminfo_pattern line with
      | Some (key, value) =>
          n ← Str.int value;
          gather_lines lines' (<[key := (n * 1024)%Z]> meminfo)
      | None => gather_lines lines' meminfo
      end
  end.

Definition __gather_mem_info (lines : list string) : result (gmap string Z) :=
  gather_lines lines ∅.

(** [MemData(mem_used_incl_cache_buff)], reading the given lines. *)
Definition MemData_new (mem_used_incl_cache_buff : bool)
    (lines : list string) : result MemData.t :=
  mem_info ← __gather_mem_info lines;
  MemData.init mem_used_incl_cache_buff mem_info.

(** ** get_disk_info *)

(** What [get_disk_info] ends with: the disks, an [IndexError] from a
    line with fewer than six fields, or another exception. *)
Inductive df_result (A : Type) : Type :=
  | DfOk (a : A)
  | DfIndexError
  | DfRaise (e : exn).
Arguments DfOk {A} a.
Arguments DfIndexError {A}.
Arguments DfRaise {A} e.

Definition df_lift {A : Type} (c : result A) : df_result A :=
  match c with
  | Ok a => DfOk a
  | Raise e => DfRaise e
  end.

Definition df_bind {A B : Type} (c : df_result A) (k : A -> df_result B)
  : df_result B :=
  match c with
  | DfOk a => k a
  | DfIndexError => DfIndexError
  | DfRaise e => DfRaise e
  end.

(** [line[i]] *)
Definition df_index (line : list string) (i : nat) : df_result string :=
  match line !! i with
  | Some field => DfOk field
  | None => DfIndexError
  end.

(** The body of the loop of [get_disk_info] on one split line. *)
Definition disk_of_line (line : list string) : df_result Disk.t :=
  df_bind (df_index line 5) (fun mount =>
  df_bind (df_index line 0) (fun file_system =>
  df_bind (df_index line 1) (fun f1 =>
  df_bind (df_lift (Str.int f1)) (fun total =>
  df_bind (df_index line 2) (fun f2 =>
  df_bind (df_lift (Str.int f2)) (fun used =>
  df_bind (df_index line 3) (fun f3 =>
  df_bind (df_lift (Str.int f3)) (fun avail =>
  df_lift (Disk.init mount file_system (total * 1024) (used * 1024)
             (avail * 1024)))))))))).

Fixpoint disks_of_lines (lines : list (list string))
  : df_result (list Disk.t) :=
  match lines with
  | [] => DfOk []
  | line :: lines' =>
      df_bind (disk_of_line line) (fun disk =>
      df_bind (disks_of_lines lines') (fun disks =>
      DfOk (disk :: disks)))
  end.

Definition DF_COMMAND (paths : list string) : string :=
  "/bin/df -k -l -P " +:+ Str.join " " paths.

(** [get_disk_info(paths)]; [popen_read] is what the shell command
    prints. *)
Definition get_disk_info (popen_read : string -> string)
    (paths : list string) : df_result (list Disk.t) :=
  let df_out :=
    map Str.split (Str.splitlines (popen_read (DF_COMMAND paths))) in
  disks_of_lines (drop 1 df_out).

(** ** Vocabulary of the further properties *)

(** Every character of [s] is in the class; [s] starts with a character
    of the class. *)
Fixpoint all_in (class : ascii -> bool) (s : string) : bool :=
  match s with
  | EmptyString => true
  | String c s' => class c && all_in class s'
  end.

Definition starts_in (class : ascii -> bool) (s : string) : bool :=
  match s with
  | EmptyString => false
  | String c _ => class c
  end.

(** A field of a table: not empty, no white space. *)
Definition is_field (s : string) : bool :=
  negb (String.eqb s "") && all_in Str.notspace s.

(** A character that [splitlines] does not break at. *)
Definition no_break (c : ascii) : bool :=
  negb (Ascii.eqb c "010") && negb (Ascii.eqb c "013").

(** Lines, each closed by a line feed. *)
Fixpoint unlines (lines : list string) : string :=
  match lines with
  | [] => ""
  | line :: lines' => line +:+ String "010" (unlines lines')
  end.

(** Every value of the dict is a number of kilobytes, in bytes. *)
Definition kilobytes (meminfo : gmap string Z) : Prop :=
  forall key v,
    meminfo !! key = Some v -> exists n, (0 <= n)%Z /\ v = (n * 1024)%Z.

(** White space between two fields of a line: not empty, no line end. *)
Definition is_gap (s : string) : bool :=
  negb (String.eqb s "")
  && all_in (fun c => Str.isspace c && no_break c) s.

(** The text of a table row: a first field, then gaps and fields, then
    white space or none. *)
Fixpoint cells_text (cells : list (string * string)) (tail : string)
  : string :=
  match cells with
  | [] => tail
  | (gap, field) :: cells' => gap +:+ field +:+ cells_text cells' tail
  end.

Record table_row : Type := {
  first_field : string;
  cells : list (string * string);
  tail : string
}.

Definition row_text (row : table_row) : string :=
  first_field row +:+ cells_text (cells row) (tail row).

Definition row_fields (row : table_row) : list string :=
  first_field row :: map snd (cells row).

Definition row_ok (row : table_row) : bool :=
  is_field (first_field row)
  && forallb (fun cell => is_gap cell.1 && is_field cell.2) (cells row)
  && all_in (fun c => Str.isspace c && no_break c) (tail row).

(** The disk that [get_disk_info] makes of a split line: fields 0 and 5
    are the file system and the mount, fields 1 to 3 the sizes in
    kilobytes. *)
Definition disk_reads (line : list string) (disk : Disk.t) : Prop :=
  exists file_system f1 f2 f3 f4 mount extra total used avail,
    line = file_system :: f1 :: f2 :: f3 :: f4 :: mount :: extra
    /\ Str.int f1 = Ok total /\ Str.int f2 = Ok used
    /\ Str.int f3 = Ok avail
    /\ Disk.init mount file_system (total * 1024) (used * 1024)
         (avail * 1024) = Ok disk.

(** A table of [df] with one row. *)
Definition DF_EXAMPLE : string :=
  unlines
    ["Filesystem     1024-blocks    Used Available Capacity Mounted on";
     row_text {| first_field := "/dev/xvda1";
                 cells := [("        ", "8123812"); (" ", "1234567");
                           ("   ", "6889245"); ("      ", "16%");
                           (" ", "/")];
                 tail := "" |}].

(** The number of points that a call appends, from the mode and the group
    name of the batch. *)
Definition points_per_call (self : Metrics.t) : nat :=
  (if bool_decide (Metrics.aggregated self ≠ Some "only") then 1 else 0)
  + (if Py.truthy (Metrics.auto_scaling_group_name self) then 1 else 0)
  + (if Py.truthy (Metrics.aggregated self) then 3 else 0).

(** The keys that [MemData.__init__] reads, in the order it reads them. *)
Definition MEMINFO_KEYS : list string :=
  ["MemTotal"; "MemFree"; "Cached"; "Buffers"; "SwapTotal"; "SwapFree"].

(** The metric names that the flags of a request select, in the order in
    which [add_memory_metrics] and [add_disk_metrics] add them. *)
Definition memory_metric_names (args : Namespace.t) : list string :=
  (if Namespace.mem_util args then ["MemoryUtilization"] else [])
  ++ (if Namespace.mem_used args then ["MemoryUsed"] else [])
  ++ (if Namespace.mem_avail args then ["MemoryAvailable"] else [])
  ++ (if Namespace.swap_util args then ["SwapUtilization"] else [])
  ++ (if Namespace.swap_used args then ["SwapUsed"] else []).

Definition disk_metric_names (args : Namespace.t) : list string :=
  (if Namespace.disk_space_util args then ["DiskSpaceUtilization"] else [])
  ++ (if Namespace.disk_space_used args then ["DiskSpaceUsed"] else [])
  ++ (if Namespace.disk_space_avail args then ["DiskSpaceAvailable"] else []).

(** The points of one metric, by name and by dimension dict. *)
Definition repeated (k : nat) (names : list string) : list string :=
  flat_map (replicate k) names.

Definition disk_dimensions (self : Metrics.t) (disk : Disk.t)
  : list (gmap string string) :=
  map (fun d => d ∪ Metrics.common_dims (Some (Disk.mount disk))
                      (Some (Disk.file_system disk)))
      (Metrics.dims self).

(** ** get_autoscaling_group, the cached lookup of the group name *)

(** What the Auto Scaling service answers: the regions to which a
    connection can be made, and, by instance id, the group names of the
    auto-scaling instances that it lists. *)
Record autoscale : Type := {
  regions : list string;
  autoscaling_instances : gmap string (list string)
}.

(** The wrapped function, on the arguments [(region, instance_id,
    verbose)]; [verbose] sets the debug level of the connection only. *)
Definition get_autoscaling_group (a : string * string * bool)
    (service : autoscale) : result string * autoscale :=
  let '(region, instance_id, verbose) := a in
  if negb (bool_decide (region ∈ regions service))
  then (Raise (IOError "Could not establish connection to CloudWatch service"),
        service)
  else
    match default [] (autoscaling_instances service !! instance_id) with
    | [] => (Raise (ValueError "Could not find auto-scaling information"),
             service)
    | group_name :: _ => (Ok group_name, service)
    end.

(** [str(args)] for these arguments, the two strings having no quote
    and no backslash. *)
Definition str_autoscaling_args (a : string * string * bool) : string :=
  let '(region, instance_id, verbose) := a in
  "('" +:+ region +:+ "', '" +:+ instance_id +:+ "', "
  +:+ (if verbose then "True" else "False") +:+ ")".

(** The MD5 digests of the signatures of two calls. *)
Definition md5_table_groups (s : string) : string :=
  if bool_decide
       (s = "get_autoscaling_group:('us-east-1', 'i-0abc', False):{}")
  then "350c29e24724984ca75e44cd64680e23"
  else if bool_decide
            (s = "get_autoscaling_group:('us-east-1', 'i-0def', False):{}")
  then "1de336ef830154df83dbf962ed556648"
  else "".

(** [get_autoscaling_group] behind [@FileCache], with no variable set in
    the environment. *)
Definition cached_get_autoscaling_group (now : Z)
    (a : string * string * bool)
    (s : FileCache.state string (string * string * bool) autoscale)
  : result string
    * FileCache.state string (string * string * bool) autoscale :=
  FileCache.call ∅ md5_table_groups "get_autoscaling_group"
    str_autoscaling_args (fun _ => "{}") get_autoscaling_group now a s.

(** Two instances of two groups, and an empty cache directory. *)
Definition two_groups : autoscale :=
  {| regions := ["us-east-1"];
     autoscaling_instances :=
       {["i-0abc" := ["web-asg"]; "i-0def" := ["db-asg"]]} |}.

Definition cold_groups_state
  : FileCache.state string (string * string * bool) autoscale :=
  {| FileCache.fs := ∅; FileCache.world := two_groups;
     FileCache.invoked := [] |}.

(** [get_metadata] behind [@FileCache] with
    [AWS_EC2CW_META_DATA_TTL=3600] in the environment. *)
Definition cached_get_metadata_ttl_3600 (now : Z)
    (s : FileCache.state (gmap string string) unit (gmap string string))
  : result (gmap string string)
    * FileCache.state (gmap string string) unit (gmap string string) :=
  FileCache.call {["AWS_EC2CW_META_DATA_TTL" := "3600"]} md5_table
    "get_metadata" (fun _ => "()") (fun _ => "{}") get_metadata now tt s.

(** An empty cache directory and a metadata service that answers. *)
Definition cold_metadata_state
  : FileCache.state (gmap string string) unit (gmap string string) :=
  {| FileCache.fs := ∅;
     FileCache.world := {["instance-id" := "i-0abc"]};
     FileCache.invoked := [] |}.

(** * Properties *)

(** ** The metric batch *)

Section MetricsFacts.
Import Metrics.

Lemma foldl_insert_union (pairs : list (string * string))
    (d : gmap string string) :
  foldl (fun d kv => <[kv.1 := kv.2]> d) d pairs
  = list_to_map (reverse pairs) ∪ d.
Proof.
  revert d. induction pairs as [|[k v] pairs IH]; intros d; simpl.
  - by rewrite (left_id_L ∅ (∪)).
  - rewrite IH, reverse_cons, list_to_map_app. simpl.
    rewrite <- (assoc_L (∪)). f_equal.
    by rewrite <- insert_union_l, (left_id_L ∅ (∪)).
Qed.

Lemma list_to_map_reverse_items (d : gmap string string) :
  list_to_map (reverse (items d)) = d.
Proof.
  unfold items. rewrite <- (list_to_map_to_list d) at 2.
  apply list_to_map_proper.
  - rewrite fmap_reverse, reverse_Permutation. apply NoDup_fst_map_to_list.
  - apply reverse_Permutation.
Qed.

(** [dict(common.items() + dim.items())] is the union in which [dim]
    wins on a shared key. *)
Lemma dict_items_app (common dim : gmap string string) :
  dict (items common ++ items dim) = dim ∪ common.
Proof.
  unfold dict. rewrite foldl_insert_union, reverse_app, list_to_map_app.
  rewrite !list_to_map_reverse_items. by rewrite (right_id_L ∅ (∪)).
Qed.

Ltac loop_induction ds :=
  let self := fresh "self" in
  intros self; revert self;
  induction ds as [|? ? IH]; intros self; simpl;
  [ by rewrite ?app_nil_r
  | rewrite IH; simpl; rewrite ?dict_items_app; by rewrite <- app_assoc ].

Lemma loop_names n u v c ds : forall self,
  names (__add_metric_dimensions self n u v c ds)
  = names self ++ replicate (length ds) n.
Proof. loop_induction ds. Qed.

Lemma loop_units n u v c ds : forall self,
  units (__add_metric_dimensions self n u v c ds)
  = units self ++ replicate (length ds) u.
Proof. loop_induction ds. Qed.

Lemma loop_values n u v c ds : forall self,
  values (__add_metric_dimensions self n u v c ds)
  = values self ++ replicate (length ds) v.
Proof. loop_induction ds. Qed.

Lemma loop_dimensions n u v c ds : forall self,
  dimensions (__add_metric_dimensions self n u v c ds)
  = dimensions self ++ map (fun d => d ∪ c) ds.
Proof. loop_induction ds. Qed.

(** The loop leaves the instance context alone. *)
Lemma loop_context n u v c ds : forall self,
  let self' := __add_metric_dimensions self n u v c ds in
  instance_id self' = instance_id self
  /\ instance_type self' = instance_type self
  /\ image_id self' = image_id self
  /\ aggregated self' = aggregated self
  /\ auto_scaling_group_name self' = auto_scaling_group_name self.
Proof.
  intros self; revert self.
  induction ds as [|d ds IH]; intros self; simpl; [done|].
  match goal with
  | |- context [__add_metric_dimensions ?s _ _ _ _ _] => apply (IH s)
  end.
Qed.

(** Only [MountPath] and [Filesystem] can be common dimensions, and each
    is there exactly when its argument is a non-empty string. *)
Lemma common_dims_lookup mount file_system k :
  common_dims mount file_system !! k
  = if bool_decide (k = "Filesystem")
    then (if Py.truthy file_system then file_system else None)
    else if bool_decide (k = "MountPath")
    then (if Py.truthy mount then mount else None)
    else None.
Proof.
  unfold common_dims.
  destruct mount as [m|], file_system as [f|]; simpl;
    repeat case_match; repeat case_bool_decide; simplify_map_eq; done.
Qed.

Lemma common_dims_other mount file_system k :
  k ≠ "Filesystem" -> k ≠ "MountPath" ->
  common_dims mount file_system !! k = None.
Proof.
  intros H1 H2. rewrite common_dims_lookup.
  by rewrite !bool_decide_false.
Qed.

Lemma insert_differs_insert (c : gmap string string) k1 k2 v1 v2 :
  k1 ≠ k2 -> c !! k1 = None -> <[k1 := v1]> c ≠ <[k2 := v2]> c.
Proof.
  intros Hk Hc Heq. apply (f_equal (fun m => m !! k1)) in Heq.
  rewrite lookup_insert_eq, lookup_insert_ne, Hc in Heq; done.
Qed.

Lemma insert_differs (c : gmap string string) k v :
  c !! k = None -> <[k := v]> c ≠ c.
Proof.
  intros Hc Heq. apply (f_equal (fun m => m !! k)) in Heq.
  rewrite lookup_insert_eq, Hc in Heq; done.
Qed.

Lemma differs_insert (c : gmap string string) k v :
  c !! k = None -> c ≠ <[k := v]> c.
Proof. intros Hc Heq. by apply (insert_differs c k v). Qed.

Lemma singleton_union (c : gmap string string) k v :
  {[k := v]} ∪ c = <[k := v]> c.
Proof. by rewrite insert_union_singleton_l. Qed.

Lemma empty_union (c : gmap string string) : ∅ ∪ c = c.
Proof. by rewrite (left_id_L ∅ (∪)). Qed.

End MetricsFacts.

Create HintDb dims discriminated.
#[export] Hint Resolve insert_differs_insert insert_differs differs_insert
  common_dims_other : dims.

Ltac unfold_add_metric :=
  unfold Metrics.add_metric;
  rewrite ?loop_names, ?loop_units, ?loop_values, ?loop_dimensions.

Ltac merge_dims :=
  simpl; rewrite ?singleton_union, ?empty_union.

(** C1.  In mode ['additional'] and without an auto-scaling group name, one
    [add_metric] call appends four points with the given name, unit and
    value; their dimension dicts are, in order, the common dimensions
    extended with [InstanceId], with [InstanceType], with [ImageId], and
    the common dimensions alone.  The common dimensions are [MountPath]
    and [Filesystem], each present when its argument is a non-empty
    string. *)
Theorem add_metric_additional_no_group
    (self : Metrics.t) (name unit : string) (value : Py.num)
    (mount file_system : option string) :
  Metrics.aggregated self = Some "additional" ->
  Py.truthy (Metrics.auto_scaling_group_name self) = false ->
  let self' := Metrics.add_metric self name unit value mount file_system in
  let common := Metrics.common_dims mount file_system in
  Metrics.names self' = Metrics.names self ++ [name; name; name; name]
  /\ Metrics.units self' = Metrics.units self ++ [unit; unit; unit; unit]
  /\ Metrics.values self'
     = Metrics.values self ++ [value; value; value; value]
  /\ Metrics.dimensions self'
     = Metrics.dimensions self
       ++ [ <["InstanceId" := Metrics.instance_id self]> common;
            <["InstanceType" := Metrics.instance_type self]> common;
            <["ImageId" := Metrics.image_id self]> common;
            common ]
  /\ common !! "MountPath" = (if Py.truthy mount then mount else None)
  /\ common !! "Filesystem"
     = (if Py.truthy file_system then file_system else None)
  /\ (forall k, k <> "MountPath" -> k <> "Filesystem" -> common !! k = None).
Proof.
  intros Hagg Hgroup self' common. subst self' common. unfold_add_metric.
  unfold Metrics.dims. rewrite Hagg, Hgroup. merge_dims.
  do 4 (split; [done|]).
  split; [by rewrite common_dims_lookup|].
  split; [by rewrite common_dims_lookup|].
  intros k Hm Hf. by apply common_dims_other.
Qed.

Lemma add_metric_additional_no_group_witness :
  let self := Metrics.init "i-0abc" "t2.micro" "ami-17" (Some "additional") None in
  Metrics.dimensions
    (Metrics.add_metric self "DiskSpaceUsed" "Gigabytes" (Py.Int 3)
       (Some "/") (Some "/dev/xvda1"))
  = [ <["InstanceId" := "i-0abc"]>
        (Metrics.common_dims (Some "/") (Some "/dev/xvda1"));
      <["InstanceType" := "t2.micro"]>
        (Metrics.common_dims (Some "/") (Some "/dev/xvda1"));
      <["ImageId" := "ami-17"]>
        (Metrics.common_dims (Some "/") (Some "/dev/xvda1"));
      Metrics.common_dims (Some "/") (Some "/dev/xvda1") ].
Proof.
  intros self.
  destruct (add_metric_additional_no_group self "DiskSpaceUsed" "Gigabytes"
              (Py.Int 3) (Some "/") (Some "/dev/xvda1"))
    as (_ & _ & _ & Hd & _); [reflexivity | reflexivity | exact Hd].
Defined.

(** C2.  In mode ['only'] and with an auto-scaling group name, one
    [add_metric] call appends four points with the given name, unit and
    value; their dimension dicts are the common dimensions extended with
    [AutoScalingGroupName], with [InstanceType], with [ImageId], and the
    common dimensions alone; none of them has the key [InstanceId]. *)
Theorem add_metric_only_with_group
    (self : Metrics.t) (name unit : string) (value : Py.num)
    (mount file_system : option string) (group : string) :
  Metrics.aggregated self = Some "only" ->
  Metrics.auto_scaling_group_name self = Some group ->
  group ≠ "" ->
  let self' := Metrics.add_metric self name unit value mount file_system in
  let common := Metrics.common_dims mount file_system in
  Metrics.names self' = Metrics.names self ++ [name; name; name; name]
  /\ Metrics.units self' = Metrics.units self ++ [unit; unit; unit; unit]
  /\ Metrics.values self'
     = Metrics.values self ++ [value; value; value; value]
  /\ Metrics.dimensions self'
     = Metrics.dimensions self
       ++ [ <["AutoScalingGroupName" := group]> common;
            <["InstanceType" := Metrics.instance_type self]> common;
            <["ImageId" := Metrics.image_id self]> common;
            common ]
  /\ Forall (fun d => d !! "InstanceId" = None)
       (appended (Metrics.dimensions self) (Metrics.dimensions self')).
Proof.
  intros Hagg Hgroup Hne self' common. subst self' common.
  assert (Py.truthy (Some group) = true) as Htruthy.
  { simpl. apply negb_true_iff, String.eqb_neq, Hne. }
  unfold appended. unfold_add_metric. rewrite drop_app_length.
  unfold Metrics.dims. rewrite Hagg, Hgroup, Htruthy. merge_dims.
  repeat split.
  repeat constructor;
    rewrite ?lookup_insert_ne by done; by apply common_dims_other.
Qed.

Lemma add_metric_only_with_group_witness :
  let self := Metrics.init "i-0abc" "t2.micro" "ami-17" (Some "only")
                (Some "web-asg") in
  let self' := Metrics.add_metric self "MemoryUtilization" "Percent"
                 (Py.Int 42) None None in
  Metrics.names self' = replicate 4 "MemoryUtilization"
  /\ Forall (fun d => d !! "InstanceId" = None) (Metrics.dimensions self').
Proof.
  intros self self'.
  destruct (add_metric_only_with_group self "MemoryUtilization" "Percent"
              (Py.Int 42) None None "web-asg")
    as (Hn & _ & _ & _ & Hd); [reflexivity | reflexivity | discriminate |].
  split; [exact Hn | exact Hd].
Defined.

(** C3.  With a false aggregation mode ([None] or ['']) and without an
    auto-scaling group name, one [add_metric] call appends one point: the
    given name, unit and value under the common dimensions extended with
    [InstanceId]. *)
Theorem add_metric_plain
    (self : Metrics.t) (name unit : string) (value : Py.num)
    (mount file_system : option string) :
  Py.truthy (Metrics.aggregated self) = false ->
  Py.truthy (Metrics.auto_scaling_group_name self) = false ->
  let self' := Metrics.add_metric self name unit value mount file_system in
  let common := Metrics.common_dims mount file_system in
  Metrics.names self' = Metrics.names self ++ [name]
  /\ Metrics.units self' = Metrics.units self ++ [unit]
  /\ Metrics.values self' = Metrics.values self ++ [value]
  /\ Metrics.dimensions self'
     = Metrics.dimensions self
       ++ [ <["InstanceId" := Metrics.instance_id self]> common ].
Proof.
  intros Hagg Hgroup self' common. subst self' common. unfold_add_metric.
  unfold Metrics.dims. rewrite Hagg, Hgroup.
  rewrite bool_decide_true; [by merge_dims|].
  intros Honly. rewrite Honly in Hagg. discriminate.
Qed.

Lemma add_metric_plain_witness :
  let self := Metrics.init "i-0abc" "t2.micro" "ami-17" None None in
  let self' := Metrics.add_metric self "SwapUsed" "Megabytes" (Py.Int 0)
                 None None in
  Metrics.points self'
  = [("SwapUsed", "Megabytes", Py.Int 0, {["InstanceId" := "i-0abc"]})].
Proof.
  intros self self'.
  destruct (add_metric_plain self "SwapUsed" "Megabytes" (Py.Int 0) None None)
    as (Hn & Hu & Hv & Hd); [reflexivity | reflexivity |].
  unfold Metrics.points. subst self'. rewrite Hn, Hu, Hv, Hd. reflexivity.
Defined.

(** C4.  Whatever the aggregation mode, the instance context and the mount
    and file system passed, the dimension dicts appended by one
    [add_metric] call are pairwise different. *)
Theorem add_metric_dimensions_distinct
    (self : Metrics.t) (name unit : string) (value : Py.num)
    (mount file_system : option string) :
  NoDup (appended (Metrics.dimensions self)
           (Metrics.dimensions
              (Metrics.add_metric self name unit value mount file_system))).
Proof.
  unfold appended. unfold_add_metric. rewrite drop_app_length.
  unfold Metrics.dims.
  destruct (bool_decide (Metrics.aggregated self ≠ Some "only")),
    (Py.truthy (Metrics.auto_scaling_group_name self)),
    (Py.truthy (Metrics.aggregated self));
    merge_dims;
    rewrite ?NoDup_cons, ?not_elem_of_cons;
    repeat split;
    auto using NoDup_nil_2, not_elem_of_nil with dims.
Qed.

Lemma init_parallel instance_id instance_type image_id aggregated group :
  parallel (Metrics.init instance_id instance_type image_id aggregated group).
Proof. by repeat split. Qed.

Lemma add_metric_parallel self name unit value mount file_system :
  parallel self ->
  parallel (Metrics.add_metric self name unit value mount file_system).
Proof.
  intros (Hu & Hv & Hd). unfold parallel. unfold_add_metric.
  rewrite !length_app, !length_replicate, length_map. lia.
Qed.

Lemma add_all_parallel calls : forall self,
  parallel self -> parallel (add_all self calls).
Proof.
  induction calls as [|[[[[name unit] value] mount] file_system] calls IH];
    intros self Hself; [exact Hself|].
  apply IH, add_metric_parallel, Hself.
Qed.

Lemma zip_replicate (name unit : string) (value : Py.num)
    (ds : list (gmap string string)) :
  zip (zip (zip (replicate (length ds) name) (replicate (length ds) unit))
         (replicate (length ds) value)) ds
  = map (fun d => (name, unit, value, d)) ds.
Proof. induction ds as [|d ds IH]; simpl; [done|]. by rewrite IH. Qed.

(** On a batch whose lists run in parallel, a call appends points that
    differ in their dimension dict only. *)
Lemma add_metric_points self name unit value mount file_system :
  parallel self ->
  let self' := Metrics.add_metric self name unit value mount file_system in
  Metrics.points self'
  = Metrics.points self
    ++ map (fun d => (name, unit, value, d))
         (appended (Metrics.dimensions self) (Metrics.dimensions self')).
Proof.
  intros (Hu & Hv & Hd) self'. subst self'.
  unfold Metrics.points, appended. unfold_add_metric.
  rewrite drop_app_length.
  rewrite <- (length_map (fun d => d ∪ Metrics.common_dims mount file_system)
                (Metrics.dims self)).
  rewrite !zip_with_app, zip_replicate; [done|..];
    rewrite ?length_zip_with; lia.
Qed.

(** C10.  A batch built by [Metrics.init] and any sequence of [add_metric]
    calls has four lists of one length; one call extends the lists of
    names, units and values by copies of its name, its unit and its value,
    as many as the dimension dicts it appends; so the points it appends to
    such a batch differ in their dimension dict only. *)
Theorem metrics_lists_parallel :
  (forall instance_id instance_type image_id aggregated auto_scaling_group
          calls,
     let self :=
       add_all (Metrics.init instance_id instance_type image_id aggregated
                  auto_scaling_group) calls in
     length (Metrics.units self) = length (Metrics.names self)
     /\ length (Metrics.values self) = length (Metrics.names self)
     /\ length (Metrics.dimensions self) = length (Metrics.names self))
  /\ (forall self name unit value mount file_system,
        let self' :=
          Metrics.add_metric self name unit value mount file_system in
        let k := length (appended (Metrics.dimensions self)
                           (Metrics.dimensions self')) in
        Metrics.names self' = Metrics.names self ++ replicate k name
        /\ Metrics.units self' = Metrics.units self ++ replicate k unit
        /\ Metrics.values self' = Metrics.values self ++ replicate k value
        /\ length (Metrics.dimensions self')
           = (length (Metrics.dimensions self) + k)%nat)
  /\ (forall instance_id instance_type image_id aggregated auto_scaling_group
             calls name unit value mount file_system,
        let self :=
          add_all (Metrics.init instance_id instance_type image_id aggregated
                     auto_scaling_group) calls in
        let self' :=
          Metrics.add_metric self name unit value mount file_system in
        Metrics.points self'
        = Metrics.points self
          ++ map (fun d => (name, unit, value, d))
               (appended (Metrics.dimensions self)
                  (Metrics.dimensions self'))).
Proof.
  split; [|split].
  - intros. apply add_all_parallel, init_parallel.
  - intros self name unit value mount file_system self' k.
    subst self' k. unfold appended. unfold_add_metric.
    rewrite drop_app_length, length_map, length_app, length_map. done.
  - intros. apply add_metric_points, add_all_parallel, init_parallel.
Qed.

(** ** Numbers *)

Section FloatFacts.
Local Open Scope Z_scope.

Lemma shr_1_lower k mrs :
  0 <= k -> 2 ^ (k + 1) <= shr_m mrs -> 2 ^ k <= shr_m (shr_1 mrs).
Proof.
  intros Hk H. rewrite Z.pow_add_r, Z.pow_1_r in H by lia.
  destruct mrs as [[|[p|p|]|p] r s]; simpl in *; lia.
Qed.

Lemma iter_shr_1_lower n : forall k mrs,
  0 <= k -> 2 ^ (k + Z.pos n) <= shr_m mrs ->
  2 ^ k <= shr_m (SpecFloat.iter_pos shr_1 n mrs).
Proof.
  induction n as [n IH|n IH|]; intros k mrs Hk H; simpl.
  - apply IH; [lia|]. apply IH; [lia|]. apply shr_1_lower; [lia|].
    replace (k + Z.pos n + Z.pos n + 1) with (k + Z.pos n~1) by lia. exact H.
  - apply IH; [lia|]. apply IH; [lia|].
    replace (k + Z.pos n + Z.pos n) with (k + Z.pos n~0) by lia. exact H.
  - apply shr_1_lower; [lia|exact H].
Qed.

Lemma digits2_pos_lower m : 2 ^ (Z.pos (digits2_pos m) - 1) <= Z.pos m.
Proof.
  induction m as [m IH|m IH|]; simpl; [| |done];
    rewrite Pos2Z.inj_succ;
    replace (Z.succ (Z.pos (digits2_pos m)) - 1)
      with ((Z.pos (digits2_pos m) - 1) + 1) by lia;
    rewrite Z.pow_add_r, Z.pow_1_r by lia; lia.
Qed.

(** Rounding a positive mantissa at an exponent above the smallest one
    leaves a positive mantissa. *)
Lemma shr_fexp_positive m e l :
  emin Py.prec Py.emax <= e ->
  let '(mrs, e') := shr_fexp Py.prec Py.emax (Z.pos m) e l in
  0 < shr_m mrs /\ emin Py.prec Py.emax <= e'.
Proof.
  intros He. unfold shr_fexp, shr, fexp. simpl Zdigits2.
  pose proof (digits2_pos_lower m) as Hd.
  destruct (Z.max (Z.pos (digits2_pos m) + e - Py.prec)
              (emin Py.prec Py.emax) - e) as [|n|n] eqn:Hn.
  - destruct l as [|[]]; simpl; lia.
  - split; [|lia].
    assert (2 ^ 0 <= shr_m (SpecFloat.iter_pos shr_1 n
              (shr_record_of_loc (Z.pos m) l))) as H0; [|simpl in H0; lia].
    apply iter_shr_1_lower; [lia|].
    assert (shr_m (shr_record_of_loc (Z.pos m) l) = Z.pos m) as ->
      by (destruct l as [|[]]; done).
    etransitivity; [|exact Hd].
    apply Z.pow_le_mono_r; unfold Py.prec in *; lia.
  - destruct l as [|[]]; simpl; lia.
Qed.

Lemma round_nearest_even_positive m l :
  0 < m -> 0 < round_nearest_even m l.
Proof.
  intros Hm. destruct l as [|[]]; simpl; try lia.
  destruct (Z.even m); lia.
Qed.

Lemma binary_round_aux_not_zero s m e l :
  emin Py.prec Py.emax <= e ->
  Py.is_zero (binary_round_aux Py.prec Py.emax s (Z.pos m) e l) = false.
Proof.
  intros He. unfold binary_round_aux.
  pose proof (shr_fexp_positive m e l He) as H1.
  destruct (shr_fexp Py.prec Py.emax (Z.pos m) e l) as [mrs' e'].
  destruct H1 as [Hpos He'].
  pose proof (round_nearest_even_positive (shr_m mrs')
                (loc_of_shr_record mrs') Hpos) as Hr.
  destruct (round_nearest_even (shr_m mrs') (loc_of_shr_record mrs'))
    as [|m'|m']; try lia.
  pose proof (shr_fexp_positive m' e' loc_Exact He') as H2.
  destruct (shr_fexp Py.prec Py.emax (Z.pos m') e' loc_Exact) as [mrs'' e''].
  destruct H2 as [Hpos' _].
  destruct (shr_m mrs''); try lia.
  by destruct (_ <=? _).
Qed.

Lemma binary_round_not_zero s m :
  Py.is_zero (binary_round Py.prec Py.emax s m 0) = false.
Proof.
  unfold binary_round, shl_align.
  destruct (fexp Py.prec Py.emax (Z.pos (digits2_pos m) + 0) - 0) eqn:Hf;
    apply binary_round_aux_not_zero; unfold fexp, emin in *;
    unfold Py.prec, Py.emax in *; lia.
Qed.

(** [float(z)] is zero for no integer but zero. *)
Lemma float_of_int_not_zero z f :
  z <> 0 -> Py.float_of_int z = Ok f -> Py.is_zero f = false.
Proof.
  intros Hz. unfold Py.float_of_int, binary_normalize.
  destruct z as [|m|m]; [done| |].
  - pose proof (binary_round_not_zero false m) as H.
    destruct (binary_round _ _ _ _ _); intros [= <-]; done.
  - pose proof (binary_round_not_zero true m) as H.
    destruct (binary_round _ _ _ _ _); intros [= <-]; done.
Qed.

(** [100.0 * x / y] for a non-zero integer [y] may overflow but does not
    divide by zero. *)
Lemma percent_of_nonzero x y :
  y <> 0 ->
  (p ← Py.mul (Py.Float Py.f100) (Py.Int x); Py.div p (Py.Int y))
  <> Raise ZeroDivisionError.
Proof.
  intros Hy. simpl.
  destruct (Py.float_of_int x) as [fx|e] eqn:Hx; simpl.
  - destruct (Py.float_of_int y) as [fy|e] eqn:Hfy; simpl.
    + by rewrite (float_of_int_not_zero y fy Hy Hfy).
    + unfold Py.float_of_int in Hfy.
      destruct (binary_normalize _ _ _ _ _); by inversion Hfy.
  - unfold Py.float_of_int in Hx.
    destruct (binary_normalize _ _ _ _ _); by inversion Hx.
Qed.

End FloatFacts.

Section UtilizationFacts.
Local Open Scope Z_scope.

Lemma swap_util_zero_total mem :
  MemData.swap_total mem = 0 -> MemData.swap_util mem = Ok (Py.Int 0).
Proof. intros H. unfold MemData.swap_util. by rewrite H. Qed.

Lemma swap_util_no_zero_division mem :
  MemData.swap_util mem <> Raise ZeroDivisionError.
Proof.
  unfold MemData.swap_util.
  destruct (Z.eqb_spec (MemData.swap_total mem) 0) as [|Hne]; [done|].
  by apply percent_of_nonzero.
Qed.

Lemma disk_util_zero_total mount file_system total used avail :
  total <= 0 ->
  Disk.init mount file_system total used avail
  = Ok {| Disk.mount := mount; Disk.file_system := file_system;
          Disk.used := used; Disk.avail := avail;
          Disk.util := Py.Int 0 |}.
Proof.
  intros H. unfold Disk.init.
  destruct (Z.gtb_spec total 0); [lia|done].
Qed.

Lemma disk_init_no_zero_division mount file_system total used avail :
  Disk.init mount file_system total used avail <> Raise ZeroDivisionError.
Proof.
  unfold Disk.init.
  destruct (Z.gtb_spec total 0) as [Hpos|]; [|done].
  pose proof (percent_of_nonzero used total) as H.
  destruct (_ ← Py.mul _ _; Py.div _ _) as [u|e]; simpl; [done|].
  intros [= ->]. apply H; [lia|done].
Qed.

(** [mem_util] has no such test: a zero total makes it raise. *)
Lemma mem_util_zero_total mem :
  MemData.mem_total mem = 0 -> is_ok (MemData.mem_util mem) = false.
Proof.
  intros H. unfold MemData.mem_util. rewrite H. simpl.
  by destruct (Py.float_of_int _).
Qed.

End UtilizationFacts.

(** C9.  [swap_util] and [Disk.__init__] test the total before they
    divide.  [swap_util] returns 0 whenever the swap total is 0, the
    [util] of a [Disk] is 0 whenever its total is 0, and on every input,
    negative ones included, neither of the two raises
    [ZeroDivisionError]. *)
Theorem utilization_guards_division (mem : MemData.t)
    (mount file_system : string) (total used avail : Z) :
  (MemData.swap_total mem = 0%Z -> MemData.swap_util mem = Ok (Py.Int 0))
  /\ MemData.swap_util mem <> Raise ZeroDivisionError
  /\ (total = 0%Z ->
      Disk.init mount file_system total used avail
      = Ok {| Disk.mount := mount; Disk.file_system := file_system;
              Disk.used := used; Disk.avail := avail;
              Disk.util := Py.Int 0 |})
  /\ Disk.init mount file_system total used avail <> Raise ZeroDivisionError.
Proof.
  split; [apply swap_util_zero_total|].
  split; [apply swap_util_no_zero_division|].
  split; [|apply disk_init_no_zero_division].
  intros ->. by apply disk_util_zero_total.
Qed.

(** A machine without swap, and a pseudo file system of size 0. *)
Lemma utilization_guards_division_witness :
  MemData.swap_util
    {| MemData.mem_used_incl_cache_buff := false;
       MemData.mem_total := 8000000000; MemData.mem_free := 500000000;
       MemData.mem_cached := 1000000000; MemData.mem_buffers := 200000000;
       MemData.swap_total := 0; MemData.swap_free := 0 |}
  = Ok (Py.Int 0)
  /\ Disk.init "/proc" "proc" 0 0 0
     = Ok {| Disk.mount := "/proc"; Disk.file_system := "proc";
             Disk.used := 0; Disk.avail := 0; Disk.util := Py.Int 0 |}.
Proof.
  destruct (utilization_guards_division
              {| MemData.mem_used_incl_cache_buff := false;
                 MemData.mem_total := 8000000000;
                 MemData.mem_free := 500000000;
                 MemData.mem_cached := 1000000000;
                 MemData.mem_buffers := 200000000;
                 MemData.swap_total := 0; MemData.swap_free := 0 |}
              "/proc" "proc" 0 0 0) as (Hswap & _ & Hdisk & _).
  split; [apply Hswap; reflexivity | apply Hdisk; reflexivity].
Defined.

(** C8.  With [mem_used_incl_cache_buff] false and readings total
    8,000,000,000, free 500,000,000, cached 1,000,000,000 and buffers
    200,000,000, [mem_avail] is 1,700,000,000 and [mem_used] is
    6,300,000,000; a run that reports [MemoryUsed] in megabytes adds it
    with a float whose exact value is 6,300,000,000 / 1,048,576, which is
    not 6300. *)
Theorem memory_used_megabytes
    (mem_info : gmap string Z) (swap_total swap_free : Z)
    (args : Namespace.t) (metrics : Metrics.t) :
  mem_info !! "MemTotal" = Some 8000000000%Z ->
  mem_info !! "MemFree" = Some 500000000%Z ->
  mem_info !! "Cached" = Some 1000000000%Z ->
  mem_info !! "Buffers" = Some 200000000%Z ->
  mem_info !! "SwapTotal" = Some swap_total ->
  mem_info !! "SwapFree" = Some swap_free ->
  Namespace.mem_used_incl_cache_buff args = false ->
  Namespace.memory_units args = "megabytes" ->
  Namespace.mem_used args = true ->
  Namespace.mem_util args = false ->
  Namespace.mem_avail args = false ->
  Namespace.swap_util args = false ->
  Namespace.swap_used args = false ->
  exists mem f q,
    MemData.init false mem_info = Ok mem
    /\ MemData.mem_avail mem = 1700000000%Z
    /\ MemData.mem_used mem = 6300000000%Z
    /\ add_memory_metrics mem_info args metrics
       = Ok (Metrics.add_metric metrics "MemoryUsed" "Megabytes"
               (Py.Float f) None None)
    /\ Py.to_Q f = Some q
    /\ Qeq q (6300000000 # 1048576)
    /\ ~ Qeq q (6300000000 # 1000000)
    /\ f <> f6300.
Proof.
  intros Htotal Hfree Hcached Hbuffers Hst Hsf Hincl Hunits Hused Hutil
    Havail Hsutil Hsused.
  eexists _, (S754_finite false 6606028800000000 (-40)), _.
  split.
  { unfold MemData.init, getitem.
    rewrite Htotal, Hfree, Hcached, Hbuffers, Hst, Hsf. reflexivity. }
  split; [reflexivity|]. split; [reflexivity|].
  split.
  { unfold add_memory_metrics, MemData.init, getitem.
    rewrite Htotal, Hfree, Hcached, Hbuffers, Hst, Hsf.
    rewrite Hincl, Hunits, Hused, Hutil, Havail, Hsutil, Hsused.
    reflexivity. }
  split; [reflexivity|].
  split; [reflexivity|]. split; [|discriminate].
  intros H. vm_compute in H. discriminate.
Qed.

Lemma memory_used_megabytes_witness :
  let mem_info : gmap string Z :=
    <["MemTotal" := 8000000000%Z]> (<["MemFree" := 500000000%Z]>
    (<["Cached" := 1000000000%Z]> (<["Buffers" := 200000000%Z]>
    (<["SwapTotal" := 0%Z]> (<["SwapFree" := 0%Z]> ∅))))) in
  let args :=
    {| Namespace.mem_util := false; Namespace.mem_used := true;
       Namespace.mem_avail := false; Namespace.swap_util := false;
       Namespace.swap_used := false;
       Namespace.mem_used_incl_cache_buff := false;
       Namespace.memory_units := "megabytes";
       Namespace.disk_path := None;
       Namespace.disk_space_util := false;
       Namespace.disk_space_used := false;
       Namespace.disk_space_avail := false;
       Namespace.disk_space_units := "gigabytes";
       Namespace.from_cron := false; Namespace.verbose := false;
       Namespace.aggregated := None; Namespace.auto_scaling := None;
       Namespace.verify := false; Namespace.version := false |} in
  exists f,
    add_memory_metrics mem_info args
      (Metrics.init "i-0abc" "t2.micro" "ami-17" None None)
    = Ok (Metrics.add_metric
            (Metrics.init "i-0abc" "t2.micro" "ami-17" None None)
            "MemoryUsed" "Megabytes" (Py.Float f) None None)
    /\ f <> f6300.
Proof.
  intros mem_info args.
  destruct (memory_used_megabytes mem_info 0 0 args
              (Metrics.init "i-0abc" "t2.micro" "ami-17" None None))
    as (mem & f & q & _ & _ & _ & Hadd & _ & _ & _ & Hne);
    try reflexivity.
  exists f. split; [exact Hadd | exact Hne].
Defined.

(** ** The request check *)

Section ValidateFacts.

Lemma prefix_app (phrase rest : string) :
  String.prefix phrase (phrase +:+ rest) = true.
Proof.
  induction phrase as [|a phrase IH]; simpl; [by destruct rest|].
  destruct (Ascii.ascii_dec a a); done.
Qed.

Lemma mentions_prefix phrase message :
  String.prefix phrase message = true -> mentions phrase message = true.
Proof.
  intros H. destruct message; unfold mentions; fold mentions; by rewrite H.
Qed.

Lemma mentions_app (before phrase after : string) :
  mentions phrase (before +:+ phrase +:+ after) = true.
Proof.
  induction before as [|a before IH].
  - change ("" +:+ phrase +:+ after) with (phrase +:+ after).
    apply mentions_prefix, prefix_app.
  - change (String a before +:+ phrase +:+ after)
      with (String a (before +:+ phrase +:+ after)).
    unfold mentions; fold mentions. rewrite IH. apply orb_true_r.
Qed.

Lemma MSG_BAD_PATH_names path : mentions path (MSG_BAD_PATH path) = true.
Proof. apply mentions_app. Qed.

(** The loop stops at the first path that is not a directory. *)
Lemma check_paths_find isdir paths :
  check_paths isdir paths
  = match List.find (fun path => negb (isdir path)) paths with
    | Some path => Raise (ValueError (MSG_BAD_PATH path))
    | None => Ok tt
    end.
Proof.
  induction paths as [|path paths IH]; simpl; [done|].
  destruct (negb (isdir path)); [done|exact IH].
Qed.

End ValidateFacts.

(** [validate_args] as a decision table. *)
Lemma validate_args_eq (isdir : string -> bool) (args : Namespace.t) :
  validate_args isdir args
  = match Namespace.disk_path args with
    | Some paths =>
        if negb (disk_flag args)
        then Raise (ValueError MSG_NO_DISK_METRICS)
        else match List.find (fun path => negb (isdir path)) paths with
             | Some path => Raise (ValueError (MSG_BAD_PATH path))
             | None => Ok (true, memory_flag args)
             end
    | None =>
        if disk_flag args then Raise (ValueError MSG_NO_DISK_PATH)
        else if negb (memory_flag args)
             then Raise (ValueError MSG_NO_METRICS)
             else Ok (false, memory_flag args)
    end.
Proof.
  unfold validate_args, disk_flag, memory_flag.
  destruct (Namespace.disk_path args) as [paths|]; simpl.
  - destruct (Namespace.disk_space_util args),
      (Namespace.disk_space_used args), (Namespace.disk_space_avail args);
      simpl; try done;
      rewrite check_paths_find; destruct (List.find _ paths); simpl;
      try done; by rewrite andb_false_r.
  - destruct (Namespace.disk_space_util args),
      (Namespace.disk_space_used args), (Namespace.disk_space_avail args);
      simpl; try done.
    rewrite andb_true_r. by destruct (negb _).
Qed.

(** C6, as the checks are ordered.  [validate_args] raises in four cases,
    tried in this order, and returns otherwise.  A path list without a
    disk-space flag: the message mentions disk space.  A disk-space flag
    without a path list: the message mentions the disk path.  A path list
    and a disk-space flag, one path not a directory: the message names the
    first such path.  No path list, no disk-space flag and no memory or
    swap flag: the message says that no metrics are specified.  In every
    other case the pair (disk data wanted, memory data wanted) comes
    back.  The function only reads the request. *)
Theorem validate_args_cases (isdir : string -> bool) (args : Namespace.t) :
  (Namespace.disk_path args <> None -> disk_flag args = false ->
     validate_args isdir args = Raise (ValueError MSG_NO_DISK_METRICS)
     /\ mentions "disk space" MSG_NO_DISK_METRICS = true)
  /\ (Namespace.disk_path args = None -> disk_flag args = true ->
        validate_args isdir args = Raise (ValueError MSG_NO_DISK_PATH)
        /\ mentions "disk path" MSG_NO_DISK_PATH = true)
  /\ (forall paths path,
        Namespace.disk_path args = Some paths -> disk_flag args = true ->
        List.find (fun path => negb (isdir path)) paths = Some path ->
        validate_args isdir args = Raise (ValueError (MSG_BAD_PATH path))
        /\ mentions path (MSG_BAD_PATH path) = true)
  /\ (Namespace.disk_path args = None -> disk_flag args = false ->
        memory_flag args = false ->
        validate_args isdir args = Raise (ValueError MSG_NO_METRICS)
        /\ mentions "No metrics specified" MSG_NO_METRICS = true)
  /\ (forall paths,
        Namespace.disk_path args = Some paths -> disk_flag args = true ->
        List.find (fun path => negb (isdir path)) paths = None ->
        validate_args isdir args = Ok (true, memory_flag args))
  /\ (Namespace.disk_path args = None -> disk_flag args = false ->
        memory_flag args = true ->
        validate_args isdir args = Ok (false, true)).
Proof.
  rewrite validate_args_eq.
  split; [|split; [|split; [|split; [|split]]]].
  - intros Hpath Hflag. destruct (Namespace.disk_path args); [|done].
    by rewrite Hflag.
  - intros Hpath Hflag. by rewrite Hpath, Hflag.
  - intros paths path Hpath Hflag Hfind. rewrite Hpath, Hflag, Hfind.
    split; [done|apply MSG_BAD_PATH_names].
  - intros Hpath Hflag Hmem. by rewrite Hpath, Hflag, Hmem.
  - intros paths Hpath Hflag Hfind. by rewrite Hpath, Hflag, Hfind.
  - intros Hpath Hflag Hmem. by rewrite Hpath, Hflag, Hmem.
Qed.

(** ** The file cache *)

Section FileCacheFacts.
Import FileCache.
Context {V A W : Type}.
Variable environ : gmap string string.
Variable md5_hexdigest : string -> string.
Variable fnc_name : string.
Variable str_args str_kwargs : A -> string.
Variable fnc : A -> W -> result V * W.

Abbreviation filename :=
  (filename environ md5_hexdigest fnc_name str_args str_kwargs).
Abbreviation sig := (sig fnc_name str_args str_kwargs).
Abbreviation recompute :=
  (recompute environ md5_hexdigest fnc_name str_args str_kwargs fnc).
Abbreviation call :=
  (call environ md5_hexdigest fnc_name str_args str_kwargs fnc).

Local Open Scope Z_scope.

Lemma call_absent now a s :
  fs s !! filename a = None -> call now a s = recompute now a s.
Proof. intros H. unfold FileCache.call. by rewrite H. Qed.

Lemma call_fresh now a s f ttl :
  META_DATA_CACHE_TTL environ = EnvInt ttl ->
  fs s !! filename a = Some f -> mtime f + ttl > now ->
  call now a s = (read f, s).
Proof.
  intros Httl Hf Hfresh. unfold FileCache.call. rewrite Hf, Httl.
  destruct (Z.gtb_spec (mtime f + ttl) now); [done|lia].
Qed.

Lemma call_stale now a s f ttl :
  META_DATA_CACHE_TTL environ = EnvInt ttl ->
  fs s !! filename a = Some f -> mtime f + ttl <= now ->
  call now a s = recompute now a s.
Proof.
  intros Httl Hf Hstale. unfold FileCache.call. rewrite Hf, Httl.
  destruct (Z.gtb_spec (mtime f + ttl) now); [lia|done].
Qed.

(** A call that finds no fresh entry is a miss. *)
Lemma call_miss now a s ttl :
  META_DATA_CACHE_TTL environ = EnvInt ttl ->
  (forall f, fs s !! filename a = Some f -> mtime f + ttl <= now) ->
  call now a s = recompute now a s.
Proof.
  intros Httl Hstale. destruct (fs s !! filename a) as [f|] eqn:Hf.
  - eapply call_stale; eauto.
  - by apply call_absent.
Qed.

Lemma recompute_invoked now a s :
  invoked (recompute now a s).2 = invoked s ++ [a]
  /\ world (recompute now a s).2 = (fnc a (world s)).2.
Proof.
  unfold FileCache.recompute. destruct (fnc a (world s)) as [[v|e] w]; simpl;
    [destruct (can_write _)|]; done.
Qed.

Lemma recompute_ok now a s v w :
  fnc a (world s) = (Ok v, w) ->
  can_write (fs s !! filename a) = true ->
  recompute now a s
  = (Ok v, {| fs := <[filename a := written now v]> (fs s);
              world := w; invoked := invoked s ++ [a] |}).
Proof.
  intros Hfnc Hw. unfold FileCache.recompute. by rewrite Hfnc, Hw.
Qed.

(** A call looks at no file but its own. *)
Lemma call_local now a s s' :
  world s = world s' -> fs s !! filename a = fs s' !! filename a ->
  (call now a s).1 = (call now a s').1.
Proof.
  intros Hw Hf. unfold FileCache.call, FileCache.recompute.
  rewrite <- Hf, <- Hw.
  destruct (fs s !! filename a) as [f|]; simpl.
  - destruct (META_DATA_CACHE_TTL environ); [|done].
    destruct (_ >? _); [done|].
    destruct (fnc a (world s)) as [[v|e] w]; [|done].
    by destruct (accessible f).
  - by destruct (fnc a (world s)) as [[v|e] w].
Qed.

Lemma length_append (x y : string) :
  String.length (x +:+ y) = (String.length x + String.length y)%nat.
Proof.
  induction x as [|c x IH]; [done|].
  change (S (String.length (x +:+ y))
          = S (String.length x + String.length y)).
  by rewrite IH.
Qed.

Lemma append_cancel_r (x y z : string) : x +:+ z = y +:+ z -> x = y.
Proof.
  revert y. induction x as [|c x IH]; intros [|d y] H.
  - done.
  - apply (f_equal String.length) in H.
    change (String.length z = S (String.length (y +:+ z))) in H.
    rewrite length_append in H. lia.
  - apply (f_equal String.length) in H.
    change (S (String.length (x +:+ z)) = String.length z) in H.
    rewrite length_append in H. lia.
  - change (String c (x +:+ z) = String d (y +:+ z)) in H.
    injection H as -> H. f_equal. by apply IH.
Qed.

(** Two signatures with different digests have different files. *)
Lemma filename_differs a b :
  md5_hexdigest (sig a) <> md5_hexdigest (sig b) -> filename a <> filename b.
Proof.
  intros Hne Heq. apply Hne. unfold FileCache.filename, path_join in Heq.
  destruct (_ || _).
  - apply (inj _), (inj _), (inj _) in Heq. by apply append_cancel_r in Heq.
  - apply (inj _), (inj _), (inj _), (inj _) in Heq.
    by apply append_cancel_r in Heq.
Qed.

Lemma read_error_raises (f : file V) e :
  read_error f = Some e -> read f = Raise e.
Proof.
  unfold read_error, read.
  destruct (accessible f); [destruct (data f)|]; by intros [= <-].
Qed.

(** The signature tells arguments apart: two signatures are equal only
    if the printed positional arguments agree whenever the printed
    keyword arguments do, and the other way round. *)
Lemma sig_inj a b :
  sig a = sig b ->
  (str_kwargs a = str_kwargs b -> str_args a = str_args b)
  /\ (str_args a = str_args b -> str_kwargs a = str_kwargs b).
Proof.
  unfold FileCache.sig. intros H. apply (inj _), (inj _) in H. split.
  - intros Hkw. rewrite Hkw in H. by apply append_cancel_r in H.
  - intros Hargs. rewrite Hargs in H. by apply (inj _), (inj _) in H.
Qed.

Lemma sig_differs a b :
  str_args b <> str_args a /\ str_kwargs b = str_kwargs a
  \/ str_args b = str_args a /\ str_kwargs b <> str_kwargs a ->
  sig b <> sig a.
Proof.
  intros Hdiff Heq. apply sig_inj in Heq as [Hargs Hkw].
  destruct Hdiff as [[Hne Hsame]|[Hsame Hne]]; auto.
Qed.

(** X30.  The cache with its default TTL.  Let [AWS_EC2CW_META_DATA_TTL]
    be unset, so that the TTL is 21600 seconds, and let a first call, at
    time [t1], find no fresh entry for its arguments and get the value
    [v] from the wrapped function.  A second call with the same arguments
    at a time [t2] with [t1 + 21600 > t2] returns [v], and the wrapped
    function has run once in the two calls.  A later call at a time [t3]
    with [t1 + 21600 <= t3] runs the wrapped function again and returns
    what it returns.  A call with other arguments, that is, with other
    printed positional arguments and the same keyword arguments or the
    other way round, has another signature; unless MD5 maps the two
    signatures to one digest, what the call returns does not depend on
    the entry of the first arguments. *)
Theorem cache_default_ttl (t1 t2 : Z) (a : A) (s : state V A W) (v : V)
    (w : W) :
  environ !! "AWS_EC2CW_META_DATA_TTL" = None ->
  (forall f, fs s !! filename a = Some f ->
             mtime f + 21600 <= t1 /\ accessible f = true) ->
  fnc a (world s) = (Ok v, w) ->
  t1 + 21600 > t2 ->
  let s1 := (call t1 a s).2 in
  let s2 := (call t2 a s1).2 in
  (call t1 a s).1 = Ok v
  /\ (call t2 a s1).1 = Ok v
  /\ invoked s2 = invoked s ++ [a]
  /\ (forall t3, t1 + 21600 <= t3 ->
        invoked (call t3 a s2).2 = invoked s2 ++ [a]
        /\ (call t3 a s2).1 = (fnc a (world s2)).1)
  /\ (forall b t entry,
        str_args b <> str_args a /\ str_kwargs b = str_kwargs a
        \/ str_args b = str_args a /\ str_kwargs b <> str_kwargs a ->
        sig b <> sig a
        /\ ((md5_hexdigest (sig b) = md5_hexdigest (sig a) -> sig b = sig a) ->
            filename b <> filename a
            /\ (call t b s2).1
               = (call t b (set_entry (filename a) entry s2)).1)).
Proof.
  intros Hunset Hstale Hfnc Hfresh s1 s2.
  assert (META_DATA_CACHE_TTL environ = EnvInt 21600) as Httl
    by (unfold META_DATA_CACHE_TTL; by rewrite Hunset).
  assert (call t1 a s
          = (Ok v, {| fs := <[filename a := written t1 v]> (fs s);
                      world := w; invoked := invoked s ++ [a] |})) as H1.
  { rewrite (call_miss t1 a s 21600 Httl); [|intros f Hf; by apply Hstale].
    apply recompute_ok; [done|].
    destruct (fs s !! filename a) as [f|] eqn:Hf; [|done].
    by apply Hstale. }
  assert (fs s1 !! filename a = Some (written t1 v)) as Hentry.
  { subst s1. rewrite H1. simpl. by rewrite lookup_insert_eq. }
  assert (call t2 a s1 = (Ok v, s1)) as H2.
  { rewrite (call_fresh t2 a s1 (written t1 v) 21600 Httl Hentry); [done|].
    simpl. lia. }
  assert (s2 = s1) as Hs2 by (subst s2; by rewrite H2).
  split; [by rewrite H1|]. split; [by rewrite H2|].
  split; [rewrite Hs2; subst s1; by rewrite H1|].
  split.
  - intros t3 Hexpired. rewrite Hs2.
    rewrite (call_stale t3 a s1 (written t1 v) 21600 Httl Hentry)
      by (simpl; lia).
    split; [apply recompute_invoked|].
    unfold FileCache.recompute. rewrite Hentry.
    by destruct (fnc a (world s1)) as [[v'|e] w'].
  - intros b t entry Hdiff.
    pose proof (sig_differs a b Hdiff) as Hsig.
    split; [exact Hsig|]. intros Hmd5.
    assert (filename b <> filename a) as Hfile.
    { apply filename_differs. intros Hdigest. by apply Hsig, Hmd5. }
    split; [exact Hfile|].
    apply call_local; [done|].
    simpl. by rewrite lookup_partial_alter_ne.
Qed.

(** C7, as the code has it.  Let the TTL be the number [ttl] and let the
    entry for the arguments be corrupt or not openable.  While the entry
    is fresh, a call raises the error of reading it, runs nothing and
    writes nothing.  Once the entry is stale, a call runs the wrapped
    function without reading the entry; with a value [v] from it, the
    call rewrites an entry it may open and returns [v]. *)
Theorem broken_entry (ttl now : Z) (a : A) (s : state V A W) (f : file V)
    (e : exn) :
  META_DATA_CACHE_TTL environ = EnvInt ttl ->
  fs s !! filename a = Some f ->
  read_error f = Some e ->
  (mtime f + ttl > now -> call now a s = (Raise e, s))
  /\ (mtime f + ttl <= now ->
      invoked (call now a s).2 = invoked s ++ [a]
      /\ forall v w,
           fnc a (world s) = (Ok v, w) -> accessible f = true ->
           call now a s
           = (Ok v, {| fs := <[filename a := written now v]> (fs s);
                       world := w; invoked := invoked s ++ [a] |})).
Proof.
  intros Httl Hf Herr. split.
  - intros Hfresh. rewrite (call_fresh now a s f ttl Httl Hf Hfresh).
    by rewrite (read_error_raises f e Herr).
  - intros Hstale. rewrite (call_stale now a s f ttl Httl Hf Hstale).
    split; [apply recompute_invoked|].
    intros v w Hfnc Hacc. apply recompute_ok; [done|].
    by rewrite Hf.
Qed.

End FileCacheFacts.

(** The cache of [get_autoscaling_group] on a cold start.  The second
    call for instance [i-0abc], within the default 21600 seconds, returns
    the stored group name and the lookup has run once; a call for
    instance [i-0def] then returns the group of that instance and not the
    stored one. *)
Lemma cache_default_ttl_witness :
  let a := ("us-east-1", "i-0abc", false) in
  let b := ("us-east-1", "i-0def", false) in
  let s1 := (cached_get_autoscaling_group 0 a cold_groups_state).2 in
  let s2 := (cached_get_autoscaling_group 100 a s1).2 in
  (cached_get_autoscaling_group 100 a s1).1 = Ok "web-asg"
  /\ FileCache.invoked s2 = [a]
  /\ (cached_get_autoscaling_group 200 b s2).1 = Ok "db-asg".
Proof.
  intros a b s1 s2.
  destruct (cache_default_ttl ∅ md5_table_groups "get_autoscaling_group"
              str_autoscaling_args (fun _ => "{}") get_autoscaling_group
              0 100 a cold_groups_state "web-asg" two_groups)
    as (_ & Hsecond & Honce & _ & Hother).
  - reflexivity.
  - intros f Hf. vm_compute in Hf. discriminate.
  - reflexivity.
  - lia.
  - split; [exact Hsecond|]. split; [exact Honce|].
    destruct (Hother b 200%Z None) as [_ Hentry].
    + left. split; [vm_compute; discriminate | reflexivity].
    + destruct Hentry as [_ Hcall].
      * intros Hdigest. vm_compute in Hdigest. discriminate.
      * unfold cached_get_autoscaling_group. fold a.
        etransitivity; [exact Hcall|]. vm_compute. reflexivity.
Defined.

(** C5.  The cache fails once the TTL is configured.  With
    [AWS_EC2CW_META_DATA_TTL=3600] in the environment and an empty cache
    directory, the first call of the cached [get_metadata], at time 0,
    runs the lookup, returns the metadata and stores it.  The second
    call, 100 seconds later and so with an entry of age 100 < 3600, does
    not return the stored value: it raises [TypeError], as does every
    later call, and the lookup is never run again.  With the variable
    unset the same second call returns the stored metadata. *)
Theorem configured_ttl_second_call_raises :
  let metadata : gmap string string := {["instance-id" := "i-0abc"]} in
  let s1 := (cached_get_metadata_ttl_3600 0 cold_metadata_state).2 in
  (cached_get_metadata_ttl_3600 0 cold_metadata_state).1 = Ok metadata
  /\ FileCache.fs s1 !! metadata_file = Some (written 0%Z metadata)
  /\ FileCache.invoked s1 = [tt]
  /\ cached_get_metadata_ttl_3600 100 s1 = (Raise TypeError, s1)
  /\ (forall now, cached_get_metadata_ttl_3600 now s1 = (Raise TypeError, s1))
  /\ (cached_get_metadata 100 (cached_get_metadata 0 cold_metadata_state).2).1
     = Ok metadata.
Proof.
  intros metadata s1.
  split; [vm_compute; reflexivity|].
  split; [vm_compute; reflexivity|].
  split; [vm_compute; reflexivity|].
  split; [vm_compute; reflexivity|].
  split; [|vm_compute; reflexivity].
  intros now. vm_compute. reflexivity.
Qed.

(** C7 fails on a corrupt entry that is 100 seconds old: the call raises
    [UnpicklingError], the lookup is not run and the file is not
    rewritten. *)
Lemma corrupt_fresh_entry_raises :
  (cached_get_metadata 100 garbage_state).1 = Raise UnpicklingError
  /\ FileCache.invoked (cached_get_metadata 100 garbage_state).2 = []
  /\ FileCache.fs (cached_get_metadata 100 garbage_state).2
     = FileCache.fs garbage_state.
Proof. vm_compute. by repeat split. Qed.

Lemma broken_entry_witness :
  cached_get_metadata 100 garbage_state = (Raise UnpicklingError, garbage_state).
Proof.
  apply (broken_entry ∅ md5_table "get_metadata" (fun _ => "()")
           (fun _ => "{}") get_metadata 21600 100 tt garbage_state
           {| FileCache.mtime := 0; FileCache.mode := 384;
              FileCache.accessible := true;
              FileCache.data := FileCache.Garbage |} UnpicklingError);
    [reflexivity | reflexivity | reflexivity | simpl; lia].
Defined.

(** C6 fails where two of its cases meet.  A path that is no directory,
    given without a disk-space flag, is not named in the message; and a
    disk-space flag without a path or a memory flag gets the message about
    the disk path, not the one about no metrics. *)
Lemma validate_args_first_check_wins :
  (List.find (fun path => negb ((fun _ => false) path)) ["/nonexistent"]
   = Some "/nonexistent"
   /\ validate_args (fun _ => false) args_bad_path
      = Raise (ValueError MSG_NO_DISK_METRICS)
   /\ mentions "/nonexistent" MSG_NO_DISK_METRICS = false)
  /\ (memory_flag args_disk_flag_only = false
      /\ Namespace.disk_path args_disk_flag_only = None
      /\ validate_args (fun _ => false) args_disk_flag_only
         = Raise (ValueError MSG_NO_DISK_PATH)
      /\ mentions "No metrics" MSG_NO_DISK_PATH = false).
Proof. vm_compute. by repeat split. Qed.

Lemma validate_args_cases_witness :
  validate_args (fun _ => true) args_data_util = Ok (true, false).
Proof.
  destruct (validate_args_cases (fun _ => true) args_data_util)
    as (_ & _ & _ & _ & Hok & _).
  apply (Hok ["/data"]); reflexivity.
Defined.

(** * Further properties *)

(** ** The metric batch, all modes *)

Lemma length_dims self : length (Metrics.dims self) = points_per_call self.
Proof.
  unfold Metrics.dims, points_per_call.
  by destruct (bool_decide _), (Py.truthy (Metrics.auto_scaling_group_name _)),
    (Py.truthy (Metrics.aggregated _)).
Qed.

(** X1.  One [add_metric] call appends between one and five points: one
    unless the mode is ['only'], one more with a group name, three more
    with a true mode.  It never appends nothing. *)
Theorem add_metric_count (self : Metrics.t) (name unit : string)
    (value : Py.num) (mount file_system : option string) :
  let self' := Metrics.add_metric self name unit value mount file_system in
  let k := length (appended (Metrics.dimensions self)
                     (Metrics.dimensions self')) in
  k = points_per_call self
  /\ length (Metrics.names self') = (length (Metrics.names self) + k)%nat
  /\ (1 <= k <= 5)%nat.
Proof.
  intros self' k. subst self' k. unfold appended. unfold_add_metric.
  rewrite drop_app_length, length_map, length_app, length_replicate.
  rewrite length_dims. split; [done|]. split; [done|].
  unfold points_per_call.
  destruct (decide (Metrics.aggregated self = Some "only")) as [->|Hmode].
  - simpl. case_match; lia.
  - rewrite bool_decide_true by done. repeat case_match; lia.
Qed.

(** X2.  A call leaves what the batch held before where it was: each of
    the four lists keeps its old content as a prefix, and the instance
    context is unchanged. *)
Theorem add_metric_keeps_batch (self : Metrics.t) (name unit : string)
    (value : Py.num) (mount file_system : option string) :
  let self' := Metrics.add_metric self name unit value mount file_system in
  Metrics.names self `prefix_of` Metrics.names self'
  /\ Metrics.units self `prefix_of` Metrics.units self'
  /\ Metrics.values self `prefix_of` Metrics.values self'
  /\ Metrics.dimensions self `prefix_of` Metrics.dimensions self'
  /\ Metrics.instance_id self' = Metrics.instance_id self
  /\ Metrics.instance_type self' = Metrics.instance_type self
  /\ Metrics.image_id self' = Metrics.image_id self
  /\ Metrics.aggregated self' = Metrics.aggregated self
  /\ Metrics.auto_scaling_group_name self'
     = Metrics.auto_scaling_group_name self.
Proof.
  intros self'. subst self'.
  pose proof (loop_context name unit value
                (Metrics.common_dims mount file_system) (Metrics.dims self)
                self) as Hctx.
  unfold Metrics.add_metric at 1 2 3 4.
  rewrite loop_names, loop_units, loop_values, loop_dimensions.
  repeat (split; [by eexists|]). exact Hctx.
Qed.

(** X3.  The modes that add a group point next to other points.  In mode
    ['additional'] with a group name a call appends five points: instance,
    group, instance type, image and the bare aggregate, in this order.
    With a false mode and a group name it appends two: instance, then
    group.  In mode ['only'] without a group name it appends the three
    aggregates, none of them with [InstanceId]. *)
Theorem add_metric_other_modes (self : Metrics.t) (name unit : string)
    (value : Py.num) (mount file_system : option string) :
  let self' := Metrics.add_metric self name unit value mount file_system in
  let common := Metrics.common_dims mount file_system in
  let new := appended (Metrics.dimensions self) (Metrics.dimensions self') in
  (forall group,
     Metrics.aggregated self = Some "additional" ->
     Metrics.auto_scaling_group_name self = Some group -> group <> "" ->
     new = [ <["InstanceId" := Metrics.instance_id self]> common;
             <["AutoScalingGroupName" := group]> common;
             <["InstanceType" := Metrics.instance_type self]> common;
             <["ImageId" := Metrics.image_id self]> common;
             common ])
  /\ (forall group,
        Py.truthy (Metrics.aggregated self) = false ->
        Metrics.auto_scaling_group_name self = Some group -> group <> "" ->
        new = [ <["InstanceId" := Metrics.instance_id self]> common;
                <["AutoScalingGroupName" := group]> common ])
  /\ (Metrics.aggregated self = Some "only" ->
      Py.truthy (Metrics.auto_scaling_group_name self) = false ->
      new = [ <["InstanceType" := Metrics.instance_type self]> common;
              <["ImageId" := Metrics.image_id self]> common;
              common ]
      /\ Forall (fun d => d !! "InstanceId" = None) new).
Proof.
  intros self' common new. subst self' common new.
  unfold appended. unfold_add_metric. rewrite drop_app_length.
  unfold Metrics.dims.
  assert (forall group, group <> "" -> Py.truthy (Some group) = true) as Ht.
  { intros group Hne. simpl. by apply negb_true_iff, String.eqb_neq. }
  split; [|split].
  - intros group Hagg Hgroup Hne. rewrite Hagg, Hgroup, (Ht group Hne).
    by merge_dims.
  - intros group Hagg Hgroup Hne. rewrite Hagg, Hgroup, (Ht group Hne).
    rewrite bool_decide_true; [by merge_dims|].
    intros Honly. rewrite Honly in Hagg. discriminate.
  - intros Hagg Hgroup. rewrite Hagg, Hgroup. merge_dims. split; [done|].
    repeat constructor;
      rewrite ?lookup_insert_ne by done; by apply common_dims_other.
Qed.

Lemma add_metric_other_modes_witness :
  let self := Metrics.init "i-0abc" "t2.micro" "ami-17" (Some "additional")
                (Some "web-asg") in
  length (Metrics.dimensions
            (Metrics.add_metric self "SwapUsed" "Megabytes" (Py.Int 0)
               None None)) = 5%nat.
Proof.
  intros self.
  destruct (add_metric_other_modes self "SwapUsed" "Megabytes" (Py.Int 0)
              None None) as (Hfive & _ & _).
  specialize (Hfive "web-asg" eq_refl eq_refl ltac:(discriminate)).
  apply (f_equal length) in Hfive. exact Hfive.
Defined.

(** X4.  Every point that a call appends carries the common dimensions of
    the call: [MountPath] and [Filesystem] are in its dict exactly when
    the argument is a non-empty string, with the argument as value; the
    identifying dimension never replaces them. *)
Theorem add_metric_keeps_common (self : Metrics.t) (name unit : string)
    (value : Py.num) (mount file_system : option string) :
  Forall (fun d =>
            d !! "MountPath" = (if Py.truthy mount then mount else None)
            /\ d !! "Filesystem"
               = (if Py.truthy file_system then file_system else None))
    (appended (Metrics.dimensions self)
       (Metrics.dimensions
          (Metrics.add_metric self name unit value mount file_system))).
Proof.
  unfold appended. unfold_add_metric. rewrite drop_app_length.
  pose proof (common_dims_lookup mount file_system "MountPath") as Hm.
  pose proof (common_dims_lookup mount file_system "Filesystem") as Hf.
  rewrite bool_decide_false, bool_decide_true in Hm by done.
  rewrite bool_decide_true in Hf by done.
  unfold Metrics.dims.
  destruct (bool_decide _), (Py.truthy (Metrics.auto_scaling_group_name _)),
    (Py.truthy (Metrics.aggregated _)); merge_dims;
    repeat constructor; rewrite ?lookup_insert_ne by done; done.
Qed.

(** X5.  [dict(common.items() + dim.items())] holds the keys of both
    dicts; a key of both gets the value it has in [dim]. *)
Theorem dict_items_lookup (common dim : gmap string string) (k : string) :
  Metrics.dict (Metrics.items common ++ Metrics.items dim) !! k
  = match dim !! k with
    | Some v => Some v
    | None => common !! k
    end.
Proof.
  rewrite dict_items_app, lookup_union. by destruct (dim !! k), (common !! k).
Qed.

Lemma points_per_call_add_metric self name unit value mount file_system :
  points_per_call (Metrics.add_metric self name unit value mount file_system)
  = points_per_call self.
Proof.
  pose proof (add_metric_keeps_batch self name unit value mount file_system)
    as (_ & _ & _ & _ & _ & _ & _ & Ha & Hg).
  unfold points_per_call. by rewrite Ha, Hg.
Qed.

Lemma add_all_length calls : forall self,
  length (Metrics.names (add_all self calls))
  = (length (Metrics.names self) + length calls * points_per_call self)%nat.
Proof.
  induction calls as [|[[[[name unit] value] mount] file_system] calls IH];
    intros self; simpl; [lia|].
  rewrite IH, points_per_call_add_metric.
  pose proof (add_metric_count self name unit value mount file_system)
    as (Hk & Hlen & _).
  rewrite Hlen, Hk. lia.
Qed.

(** X6.  A batch that [n] calls have filled holds [n] times the number of
    points of one call, whatever the metrics were: the mode and the group
    name fix that number when the batch is created. *)
Theorem batch_size (instance_id instance_type image_id : string)
    (aggregated auto_scaling_group : option string)
    (calls : list (string * string * Py.num * option string * option string)) :
  let self0 := Metrics.init instance_id instance_type image_id aggregated
                 auto_scaling_group in
  length (Metrics.points (add_all self0 calls))
  = (length calls * points_per_call self0)%nat.
Proof.
  intros self0.
  destruct (add_all_parallel calls self0 (init_parallel _ _ _ _ _))
    as (Hu & Hv & Hd).
  unfold Metrics.points. rewrite !length_zip_with, Hu, Hv, Hd.
  rewrite add_all_length. simpl. lia.
Qed.

(** ** Memory, swap and disk figures *)

(** X7.  [MemData.__init__] needs six keys of the parsed [/proc/meminfo].
    It raises [KeyError] for the first one that is missing, in the order
    [MemTotal], [MemFree], [Cached], [Buffers], [SwapTotal], [SwapFree];
    with all six there it stores their values and the flag. *)
Theorem memdata_init_keys (flag : bool) (mem_info : gmap string Z) :
  (forall key,
     List.find (fun k => bool_decide (mem_info !! k = None)) MEMINFO_KEYS
     = Some key ->
     MemData.init flag mem_info = Raise (KeyError key))
  /\ (List.find (fun k => bool_decide (mem_info !! k = None)) MEMINFO_KEYS
      = None ->
      exists mem,
        MemData.init flag mem_info = Ok mem
        /\ MemData.mem_used_incl_cache_buff mem = flag
        /\ mem_info !! "MemTotal" = Some (MemData.mem_total mem)
        /\ mem_info !! "MemFree" = Some (MemData.mem_free mem)
        /\ mem_info !! "Cached" = Some (MemData.mem_cached mem)
        /\ mem_info !! "Buffers" = Some (MemData.mem_buffers mem)
        /\ mem_info !! "SwapTotal" = Some (MemData.swap_total mem)
        /\ mem_info !! "SwapFree" = Some (MemData.swap_free mem)).
Proof.
  unfold MemData.init, getitem, MEMINFO_KEYS. simpl.
  destruct (mem_info !! "MemTotal") as [v1|]; simpl;
    [|split; [by intros key [= <-]|done]].
  destruct (mem_info !! "MemFree") as [v2|]; simpl;
    [|split; [by intros key [= <-]|done]].
  destruct (mem_info !! "Cached") as [v3|]; simpl;
    [|split; [by intros key [= <-]|done]].
  destruct (mem_info !! "Buffers") as [v4|]; simpl;
    [|split; [by intros key [= <-]|done]].
  destruct (mem_info !! "SwapTotal") as [v5|]; simpl;
    [|split; [by intros key [= <-]|done]].
  destruct (mem_info !! "SwapFree") as [v6|]; simpl;
    [|split; [by intros key [= <-]|done]].
  split; [done|]. intros _. eexists. by repeat split.
Qed.

Lemma memdata_init_keys_witness :
  MemData.init false (<["MemTotal" := 4096%Z]> ∅) = Raise (KeyError "MemFree").
Proof.
  apply (memdata_init_keys false (<["MemTotal" := 4096%Z]> ∅)). reflexivity.
Defined.

(** X8.  Used and available memory always add up to the total.  Counting
    cache and buffers as used moves exactly their sum from available to
    used; swap figures do not depend on the flag. *)
Theorem memory_accounting (mem_info : gmap string Z) (incl excl : MemData.t) :
  MemData.init true mem_info = Ok incl ->
  MemData.init false mem_info = Ok excl ->
  (MemData.mem_used incl + MemData.mem_avail incl
   = MemData.mem_total incl)%Z
  /\ (MemData.mem_used excl + MemData.mem_avail excl
      = MemData.mem_total excl)%Z
  /\ MemData.mem_avail incl = MemData.mem_free incl
  /\ (MemData.mem_avail excl
      = MemData.mem_avail incl
        + (MemData.mem_cached excl + MemData.mem_buffers excl))%Z
  /\ (MemData.mem_used incl
      = MemData.mem_used excl
        + (MemData.mem_cached excl + MemData.mem_buffers excl))%Z
  /\ MemData.swap_used incl = MemData.swap_used excl.
Proof.
  unfold MemData.init, getitem.
  destruct (mem_info !! "MemTotal"), (mem_info !! "MemFree"),
    (mem_info !! "Cached"), (mem_info !! "Buffers"),
    (mem_info !! "SwapTotal"), (mem_info !! "SwapFree"); simpl; try done.
  intros [= <-] [= <-].
  unfold MemData.mem_used, MemData.mem_avail, MemData.swap_used. simpl.
  repeat split; lia.
Qed.

Lemma memory_accounting_witness :
  (MemData.mem_used
     {| MemData.mem_used_incl_cache_buff := true;
        MemData.mem_total := 100; MemData.mem_free := 10;
        MemData.mem_cached := 20; MemData.mem_buffers := 5;
        MemData.swap_total := 0; MemData.swap_free := 0 |}
   = MemData.mem_used
       {| MemData.mem_used_incl_cache_buff := false;
          MemData.mem_total := 100; MemData.mem_free := 10;
          MemData.mem_cached := 20; MemData.mem_buffers := 5;
          MemData.swap_total := 0; MemData.swap_free := 0 |}
     + (20 + 5))%Z.
Proof.
  apply (memory_accounting
           (<["MemTotal" := 100%Z]> (<["MemFree" := 10%Z]>
            (<["Cached" := 20%Z]> (<["Buffers" := 5%Z]>
            (<["SwapTotal" := 0%Z]> (<["SwapFree" := 0%Z]> ∅)))))));
    reflexivity.
Defined.

(** X9.  [swap_util] never divides by zero: a swap total of 0 gives the
    integer 0, and for no readings at all does it raise
    [ZeroDivisionError]. *)
Theorem swap_util_guarded (mem : MemData.t) :
  (MemData.swap_total mem = 0%Z -> MemData.swap_util mem = Ok (Py.Int 0))
  /\ MemData.swap_util mem <> Raise ZeroDivisionError.
Proof.
  split; [apply swap_util_zero_total|apply swap_util_no_zero_division].
Qed.

Lemma swap_util_guarded_witness :
  MemData.swap_util
    {| MemData.mem_used_incl_cache_buff := false;
       MemData.mem_total := 4096; MemData.mem_free := 1024;
       MemData.mem_cached := 0; MemData.mem_buffers := 0;
       MemData.swap_total := 0; MemData.swap_free := 0 |}
  = Ok (Py.Int 0).
Proof.
  apply (swap_util_guarded
           {| MemData.mem_used_incl_cache_buff := false;
              MemData.mem_total := 4096; MemData.mem_free := 1024;
              MemData.mem_cached := 0; MemData.mem_buffers := 0;
              MemData.swap_total := 0; MemData.swap_free := 0 |}).
  reflexivity.
Defined.

(** X10.  [mem_util] raises [ZeroDivisionError] exactly on a memory total
    of 0 (with a used figure that a float can hold; a larger one raises
    [OverflowError] first). *)
Theorem mem_util_zero_division (mem : MemData.t) :
  MemData.mem_util mem = Raise ZeroDivisionError
  <-> MemData.mem_total mem = 0%Z
      /\ is_ok (Py.float_of_int (MemData.mem_used mem)) = true.
Proof.
  split.
  - intros H. destruct (decide (MemData.mem_total mem = 0%Z)) as [H0|Hne].
    + split; [done|]. unfold MemData.mem_util in H. simpl in H.
      destruct (Py.float_of_int (MemData.mem_used mem)) as [f|e] eqn:Hf;
        [done|].
      simpl in H. injection H as ->. unfold Py.float_of_int in Hf.
      destruct (binary_normalize _ _ _ _ _); by inversion Hf.
    + by destruct (percent_of_nonzero (MemData.mem_used mem)
                     (MemData.mem_total mem) Hne).
  - intros [H0 Hok]. unfold MemData.mem_util. rewrite H0. simpl.
    by destruct (Py.float_of_int (MemData.mem_used mem)).
Qed.

Lemma disk_init_fields (mount file_system : string) (total used avail : Z)
    (disk : Disk.t) :
  Disk.init mount file_system total used avail = Ok disk ->
  Disk.mount disk = mount /\ Disk.file_system disk = file_system
  /\ Disk.used disk = used /\ Disk.avail disk = avail.
Proof.
  unfold Disk.init.
  destruct (if (total >? 0)%Z then _ else _) as [u|e]; simpl; [|done].
  by intros [= <-].
Qed.

(** X11.  [Disk.__init__] never divides by zero.  A total that is 0 or
    negative gives the integer 0 as utilization; whenever a [Disk] is
    built, the mount, the file system and the used and available bytes
    are the ones passed. *)
Theorem disk_init_guarded (mount file_system : string)
    (total used avail : Z) :
  Disk.init mount file_system total used avail <> Raise ZeroDivisionError
  /\ ((total <= 0)%Z ->
      Disk.init mount file_system total used avail
      = Ok {| Disk.mount := mount; Disk.file_system := file_system;
              Disk.used := used; Disk.avail := avail;
              Disk.util := Py.Int 0 |})
  /\ (forall disk,
        Disk.init mount file_system total used avail = Ok disk ->
        Disk.mount disk = mount /\ Disk.file_system disk = file_system
        /\ Disk.used disk = used /\ Disk.avail disk = avail).
Proof.
  split; [apply disk_init_no_zero_division|].
  split; [apply disk_util_zero_total|].
  intros disk. apply disk_init_fields.
Qed.

Lemma disk_init_guarded_witness :
  Disk.init "/proc" "proc" 0 0 0
  = Ok {| Disk.mount := "/proc"; Disk.file_system := "proc";
          Disk.used := 0; Disk.avail := 0; Disk.util := Py.Int 0 |}.
Proof. apply (disk_init_guarded "/proc" "proc" 0 0 0). lia. Defined.

(** ** The file cache, beyond the two-call scenario *)

Section FileCacheMore.
Import FileCache.
Context {V A W : Type}.
Variable environ : gmap string string.
Variable md5_hexdigest : string -> string.
Variable fnc_name : string.
Variable str_args str_kwargs : A -> string.
Variable fnc : A -> W -> result V * W.

Abbreviation filename' :=
  (filename environ md5_hexdigest fnc_name str_args str_kwargs).
Abbreviation recompute' :=
  (recompute environ md5_hexdigest fnc_name str_args str_kwargs fnc).
Abbreviation call' :=
  (call environ md5_hexdigest fnc_name str_args str_kwargs fnc).

Local Open Scope Z_scope.

(** X12.  With [AWS_EC2CW_META_DATA_TTL] set in the environment the TTL
    is a string.  A call that finds a cache file, fresh or not, then
    raises [TypeError] without running the wrapped function; so after
    one call has written its file, every later call with the same
    arguments fails. *)
Theorem ttl_override_breaks_cache (setting : string) (a : A)
    (s : state V A W) :
  environ !! "AWS_EC2CW_META_DATA_TTL" = Some setting ->
  (forall now f, fs s !! filename' a = Some f ->
                 call' now a s = (Raise TypeError, s))
  /\ (forall t1 t2 v w,
        fs s !! filename' a = None -> fnc a (world s) = (Ok v, w) ->
        (call' t1 a s).1 = Ok v
        /\ call' t2 a (call' t1 a s).2
           = (Raise TypeError, (call' t1 a s).2)).
Proof.
  intros Hset.
  assert (META_DATA_CACHE_TTL environ = EnvStr setting) as Httl
    by (unfold META_DATA_CACHE_TTL; by rewrite Hset).
  split.
  - intros now f Hf. unfold FileCache.call. by rewrite Hf, Httl.
  - intros t1 t2 v w Hnone Hfnc.
    rewrite (call_absent _ _ _ _ _ _ t1 a s Hnone).
    rewrite (recompute_ok _ _ _ _ _ _ t1 a s v w Hfnc)
      by (by rewrite Hnone).
    split; [done|]. unfold FileCache.call. simpl.
    by rewrite lookup_insert_eq, Httl.
Qed.

(** X13.  A lookup that fails is not cached.  When a call finds no fresh
    entry and the wrapped function raises, the call raises the same
    exception and the cache directory is as before, so the next call
    runs the wrapped function again. *)
Theorem failure_not_cached (ttl now : Z) (a : A) (s : state V A W)
    (e : exn) (w : W) :
  META_DATA_CACHE_TTL environ = EnvInt ttl ->
  (forall f, fs s !! filename' a = Some f -> mtime f + ttl <= now) ->
  fnc a (world s) = (Raise e, w) ->
  call' now a s
  = (Raise e, {| fs := fs s; world := w; invoked := invoked s ++ [a] |})
  /\ forall later,
       now <= later ->
       invoked (call' later a (call' now a s).2).2
       = invoked s ++ [a; a].
Proof.
  intros Httl Hstale Hfnc.
  assert (call' now a s
          = (Raise e, {| fs := fs s; world := w;
                         invoked := invoked s ++ [a] |})) as Hcall.
  { rewrite (call_miss _ _ _ _ _ _ now a s ttl Httl Hstale).
    unfold FileCache.recompute. by rewrite Hfnc. }
  split; [exact Hcall|].
  intros later Hlater. rewrite Hcall. simpl.
  rewrite (call_miss _ _ _ _ _ _ later a _ ttl Httl).
  - destruct (recompute_invoked environ md5_hexdigest fnc_name str_args
                str_kwargs fnc later a
                {| fs := fs s; world := w; invoked := invoked s ++ [a] |})
      as [-> _].
    simpl. by rewrite <- app_assoc.
  - simpl. intros f Hf. specialize (Hstale f Hf). lia.
Qed.

Lemma recompute_touches_own_file (now : Z) (a : A) (s : state V A W) :
  let s' := (recompute' now a s).2 in
  (forall name, name <> filename' a -> fs s' !! name = fs s !! name)
  /\ (forall name, is_Some (fs s !! name) -> is_Some (fs s' !! name))
  /\ (forall v, (recompute' now a s).1 = Ok v ->
        exists f, fs s' !! filename' a = Some f /\ data f = Pickled v).
Proof.
  unfold FileCache.recompute.
  destruct (fnc a (world s)) as [[tmp|e] w]; simpl; [|by repeat split].
  destruct (can_write _); simpl; [|by repeat split].
  split; [|split].
  - intros name Hname. by rewrite lookup_insert_ne.
  - intros name Hsome.
    destruct (decide (filename' a = name)) as [<-|Hne].
    + by rewrite lookup_insert_eq.
    + by rewrite lookup_insert_ne.
  - intros v [= <-]. rewrite lookup_insert_eq. by eexists.
Qed.

(** X14.  A call touches no file but its own.  Every other file of the
    cache directory is as it was and no file disappears; and when the
    call returns a value, the file of the call holds the pickle of that
    value afterwards. *)
Theorem call_touches_own_file (now : Z) (a : A) (s : state V A W) :
  let s' := (call' now a s).2 in
  (forall name, name <> filename' a -> fs s' !! name = fs s !! name)
  /\ (forall name, is_Some (fs s !! name) -> is_Some (fs s' !! name))
  /\ (forall v, (call' now a s).1 = Ok v ->
        exists f, fs s' !! filename' a = Some f /\ data f = Pickled v).
Proof.
  pose proof (recompute_touches_own_file now a s) as Hrec.
  unfold FileCache.call.
  destruct (fs s !! filename' a) as [f|] eqn:Hf; [|exact Hrec].
  destruct (META_DATA_CACHE_TTL environ) as [ttl|setting].
  - destruct (_ >? _); [|exact Hrec]. simpl.
    split; [done|]. split; [done|]. intros v Hread.
    exists f. split; [done|]. unfold read, load in Hread.
    destruct (accessible f); [|done].
    destruct (data f) as [v'|]; [|done]. by injection Hread as ->.
  - simpl. split; [done|]. split; [done|]. by intros v.
Qed.

(** X15.  The freshness test is strict.  An entry that this process may
    open and that holds the pickle of [v] is returned, with nothing run
    and nothing written, as long as [now < mtime + ttl], whatever the
    wrapped function would answer now; from [now = mtime + ttl] on the
    wrapped function is run. *)
Theorem freshness_boundary (ttl now : Z) (a : A) (s : state V A W)
    (f : file V) (v : V) :
  META_DATA_CACHE_TTL environ = EnvInt ttl ->
  fs s !! filename' a = Some f ->
  accessible f = true -> data f = Pickled v ->
  (now < mtime f + ttl -> call' now a s = (Ok v, s))
  /\ (mtime f + ttl <= now ->
      invoked (call' now a s).2 = invoked s ++ [a]
      /\ (call' now a s).1 = (fnc a (world s)).1).
Proof.
  intros Httl Hf Hacc Hdata. split.
  - intros Hfresh.
    rewrite (call_fresh _ _ _ _ _ _ now a s f ttl Httl Hf) by lia.
    unfold read. by rewrite Hacc, Hdata.
  - intros Hstale.
    rewrite (call_stale _ _ _ _ _ _ now a s f ttl Httl Hf Hstale).
    split; [apply recompute_invoked|].
    unfold FileCache.recompute. rewrite Hf. simpl. rewrite Hacc.
    by destruct (fnc a (world s)) as [[v'|e] w'].
Qed.

End FileCacheMore.

Lemma ttl_override_breaks_cache_witness :
  let s := {| FileCache.fs := ∅;
              FileCache.world := {["instance-id" := "i-0abc"]};
              FileCache.invoked := [] |} in
  let call := FileCache.call {["AWS_EC2CW_META_DATA_TTL" := "3600"]}
                md5_table "get_metadata" (fun _ => "()") (fun _ => "{}")
                get_metadata in
  (call 100%Z tt (call 0%Z tt s).2).1 = Raise TypeError.
Proof.
  intros s call.
  destruct (ttl_override_breaks_cache
              {["AWS_EC2CW_META_DATA_TTL" := "3600"]} md5_table
              "get_metadata" (fun _ => "()") (fun _ => "{}") get_metadata
              "3600" tt s) as [_ H]; [reflexivity|].
  destruct (H 0%Z 100%Z {["instance-id" := "i-0abc"]}
              {["instance-id" := "i-0abc"]}) as [_ H2];
    [reflexivity | reflexivity |].
  subst call. by rewrite H2.
Defined.

Lemma failure_not_cached_witness :
  let s := {| FileCache.fs := ∅; FileCache.world := ∅;
              FileCache.invoked := [] |} in
  cached_get_metadata 0 s
  = (Raise (ValueError "Cannot obtain EC2 metadata."),
     {| FileCache.fs := ∅; FileCache.world := ∅;
        FileCache.invoked := [tt] |}).
Proof.
  intros s.
  apply (failure_not_cached ∅ md5_table "get_metadata" (fun _ => "()")
           (fun _ => "{}") get_metadata 21600 0 tt s
           (ValueError "Cannot obtain EC2 metadata.") ∅).
  - reflexivity.
  - intros f Hf. vm_compute in Hf. discriminate.
  - reflexivity.
Defined.

Lemma freshness_boundary_witness :
  let entry := written 1000%Z ({["instance-id" := "i-old"]} : gmap string string) in
  let s := {| FileCache.fs := {[metadata_file := entry]};
              FileCache.world :=
                ({["instance-id" := "i-new"]} : gmap string string);
              FileCache.invoked := [] |} in
  cached_get_metadata 22599 s = (Ok {["instance-id" := "i-old"]}, s)
  /\ (cached_get_metadata 22600 s).1 = Ok {["instance-id" := "i-new"]}.
Proof.
  intros entry s.
  destruct (freshness_boundary ∅ md5_table "get_metadata" (fun _ => "()")
              (fun _ => "{}") get_metadata 21600 22599 tt s entry
              {["instance-id" := "i-old"]})
    as [Hfresh _]; [reflexivity | reflexivity | reflexivity | reflexivity |].
  destruct (freshness_boundary ∅ md5_table "get_metadata" (fun _ => "()")
              (fun _ => "{}") get_metadata 21600 22600 tt s entry
              {["instance-id" := "i-old"]})
    as [_ Hstale]; [reflexivity | reflexivity | reflexivity | reflexivity |].
  split.
  - apply Hfresh. simpl. lia.
  - destruct Hstale as [_ Hres]; [simpl; lia|]. exact Hres.
Defined.

(** ** What a passed validation guarantees *)

Lemma find_none_forall {X : Type} (p : X -> bool) (l : list X) :
  List.find p l = None -> Forall (fun x => p x = false) l.
Proof.
  induction l as [|x l IH]; simpl; [by constructor|].
  destruct (p x) eqn:Hp; [done|]. intros H. constructor; auto.
Qed.

(** X16.  When [validate_args] returns, the pair it returns tells what to
    collect and what may be relied on.  The first flag says that paths
    were given; then some disk-space flag is set and every path is a
    directory.  Without paths no disk-space flag is set.  The second flag
    says that some memory or swap flag is set.  One of the two flags is
    true: a validated request always collects something. *)
Theorem validate_args_ok (isdir : string -> bool) (args : Namespace.t)
    (report_disk_data report_mem_data : bool) :
  validate_args isdir args = Ok (report_disk_data, report_mem_data) ->
  report_mem_data = memory_flag args
  /\ (report_disk_data = true \/ report_mem_data = true)
  /\ (report_disk_data = true ->
      disk_flag args = true
      /\ exists paths,
           Namespace.disk_path args = Some paths
           /\ Forall (fun path => isdir path = true) paths)
  /\ (report_disk_data = false ->
      Namespace.disk_path args = None /\ disk_flag args = false).
Proof.
  rewrite validate_args_eq.
  destruct (Namespace.disk_path args) as [paths|].
  - destruct (disk_flag args); simpl; [|done].
    destruct (List.find _ paths) eqn:Hfind; [done|].
    intros [= <- <-]. split; [done|]. split; [by left|].
    split; [|done]. intros _. split; [done|]. exists paths. split; [done|].
    apply find_none_forall in Hfind.
    eapply Forall_impl; [exact Hfind|]. simpl. intros path H.
    by apply negb_false_iff.
  - destruct (disk_flag args); simpl; [done|].
    destruct (memory_flag args) eqn:Hmem; simpl; [|done].
    intros [= <- <-]. split; [done|]. split; [by right|]. by split.
Qed.

Lemma validate_args_ok_witness :
  disk_flag args_data_util = true
  /\ exists paths,
       Namespace.disk_path args_data_util = Some paths
       /\ Forall (fun path => (fun _ => true) path = true) paths.
Proof.
  destruct (validate_args_ok (fun _ => true) args_data_util true false)
    as (_ & _ & Hdisk & _); [reflexivity|].
  by apply Hdisk.
Defined.

(** X17.  [validate_args] raises nothing but [ValueError], with one of its
    four messages. *)
Theorem validate_args_raises (isdir : string -> bool) (args : Namespace.t)
    (e : exn) :
  validate_args isdir args = Raise e ->
  e = ValueError MSG_NO_DISK_METRICS
  \/ e = ValueError MSG_NO_DISK_PATH
  \/ e = ValueError MSG_NO_METRICS
  \/ exists path paths,
       Namespace.disk_path args = Some paths /\ path ∈ paths
       /\ isdir path = false /\ e = ValueError (MSG_BAD_PATH path).
Proof.
  rewrite validate_args_eq.
  destruct (Namespace.disk_path args) as [paths|].
  - destruct (disk_flag args); simpl; [|intros [= <-]; by left].
    destruct (List.find _ paths) as [path|] eqn:Hfind; [|done].
    intros [= <-]. right; right; right. exists path, paths.
    apply find_some in Hfind as [Hin Hdir].
    split; [done|]. split; [by apply list_elem_of_In|].
    split; [by apply negb_true_iff|done].
  - destruct (disk_flag args); simpl; [intros [= <-]; right; by left|].
    destruct (memory_flag args); simpl; [done|].
    intros [= <-]. right; right; by left.
Qed.

Lemma validate_args_raises_witness :
  ValueError MSG_NO_DISK_METRICS = ValueError MSG_NO_DISK_METRICS
  \/ ValueError MSG_NO_DISK_METRICS = ValueError MSG_NO_DISK_PATH
  \/ ValueError MSG_NO_DISK_METRICS = ValueError MSG_NO_METRICS
  \/ exists path paths,
       Namespace.disk_path args_bad_path = Some paths /\ path ∈ paths
       /\ (fun _ => false) path = false
       /\ ValueError MSG_NO_DISK_METRICS = ValueError (MSG_BAD_PATH path).
Proof.
  apply (validate_args_raises (fun _ => false) args_bad_path). reflexivity.
Defined.

(** ** Collecting the memory and the disk metrics *)

Section CollectFacts.

Lemma dims_add_metric self name unit value mount file_system :
  Metrics.dims (Metrics.add_metric self name unit value mount file_system)
  = Metrics.dims self.
Proof.
  pose proof (add_metric_keeps_batch self name unit value mount file_system)
    as (_ & _ & _ & _ & Hi & Ht & Him & Ha & Hg).
  unfold Metrics.dims. by rewrite Hi, Ht, Him, Ha, Hg.
Qed.

(** What one guarded [add_metric] does to the batch. *)
Lemma add_if_ok flag self name unit value mount file_system self' :
  add_if flag self name unit value mount file_system = Ok self' ->
  Metrics.names self'
  = Metrics.names self
    ++ repeated (points_per_call self) (if flag then [name] else [])
  /\ Metrics.dimensions self'
     = Metrics.dimensions self
       ++ (if flag
           then map (fun d => d ∪ Metrics.common_dims mount file_system)
                  (Metrics.dims self)
           else [])
  /\ Metrics.dims self' = Metrics.dims self
  /\ points_per_call self' = points_per_call self.
Proof.
  unfold add_if, repeated. destruct flag; simpl.
  - destruct value as [v|e]; simpl; [|done]. intros [= <-].
    rewrite dims_add_metric, points_per_call_add_metric.
    unfold_add_metric. by rewrite length_dims, !app_nil_r.
  - intros [= <-]. by rewrite !app_nil_r.
Qed.

Lemma add_if_raises flag self name unit value mount file_system e :
  add_if flag self name unit value mount file_system = Raise e ->
  flag = true /\ value = Raise e.
Proof.
  unfold add_if. destruct flag; [|done].
  by destruct value as [v|e']; simpl; [|intros [= <-]].
Qed.

(** No divisor of the unit table is zero. *)
Lemma size_unit_div_nonzero unit cfg :
  SIZE_UNITS_CFG !! unit = Some cfg -> SizeUnit.div cfg <> 0%Z.
Proof.
  unfold SIZE_UNITS_CFG. intros H.
  repeat (apply lookup_insert_Some in H as [[_ <-]|[_ H]]; [done|]).
  by rewrite lookup_empty in H.
Qed.

(** A byte count over the float of a non-zero divisor does not divide
    by zero. *)
Lemma bytes_over_unit_no_zero_division bytes div f :
  div <> 0%Z -> Py.float_of_int div = Ok f ->
  Py.div (Py.Int bytes) (Py.Float f) <> Raise ZeroDivisionError.
Proof.
  intros Hdiv Hf. simpl.
  destruct (Py.float_of_int bytes) as [fb|e] eqn:Hb; simpl.
  - by rewrite (float_of_int_not_zero div f Hdiv Hf).
  - unfold Py.float_of_int in Hb.
    destruct (binary_normalize _ _ _ _ _); by inversion Hb.
Qed.

End CollectFacts.

(** X18.  When [add_memory_metrics] returns, it has added the metrics that
    the flags select, in the order [MemoryUtilization], [MemoryUsed],
    [MemoryAvailable], [SwapUtilization], [SwapUsed], each with as many
    points as the mode and the group name of the batch ask for; what the
    batch held before is in front of them. *)
Theorem add_memory_metrics_names (mem_info : gmap string Z)
    (args : Namespace.t) (metrics metrics' : Metrics.t) :
  add_memory_metrics mem_info args metrics = Ok metrics' ->
  Metrics.names metrics'
  = Metrics.names metrics
    ++ repeated (points_per_call metrics) (memory_metric_names args)
  /\ length (Metrics.dimensions metrics')
     = (length (Metrics.dimensions metrics)
        + points_per_call metrics * length (memory_metric_names args))%nat.
Proof.
  unfold add_memory_metrics.
  destruct (MemData.init _ mem_info) as [mem|e]; simpl; [|done].
  destruct (getitem SIZE_UNITS_CFG _) as [cfg|e]; simpl; [|done].
  destruct (Py.float_of_int (SizeUnit.div cfg)) as [fdiv|e]; simpl; [|done].
  destruct (add_if (Namespace.mem_util args) metrics _ _ _ _ _)
    as [m1|e] eqn:H1; simpl; [|done].
  destruct (add_if (Namespace.mem_used args) m1 _ _ _ _ _)
    as [m2|e] eqn:H2; simpl; [|done].
  destruct (add_if (Namespace.mem_avail args) m2 _ _ _ _ _)
    as [m3|e] eqn:H3; simpl; [|done].
  destruct (add_if (Namespace.swap_util args) m3 _ _ _ _ _)
    as [m4|e] eqn:H4; simpl; [|done].
  intros H5.
  apply add_if_ok in H1 as (N1 & D1 & _ & P1).
  apply add_if_ok in H2 as (N2 & D2 & _ & P2).
  apply add_if_ok in H3 as (N3 & D3 & _ & P3).
  apply add_if_ok in H4 as (N4 & D4 & _ & P4).
  apply add_if_ok in H5 as (N5 & D5 & _ & P5).
  rewrite P4, P3, P2, P1 in N5. rewrite P3, P2, P1 in N4.
  rewrite P2, P1 in N3. rewrite P1 in N2.
  split.
  - rewrite N5, N4, N3, N2, N1. unfold memory_metric_names, repeated.
    rewrite !flat_map_app, <- !app_assoc. done.
  - rewrite D5, D4, D3, D2, D1. unfold memory_metric_names.
    rewrite !length_app.
    destruct (Namespace.mem_util args), (Namespace.mem_used args),
      (Namespace.mem_avail args), (Namespace.swap_util args),
      (Namespace.swap_used args); simpl;
      rewrite ?length_map, ?length_dims; lia.
Qed.

(** X19.  [add_memory_metrics] divides by zero in one case only: memory
    utilization is requested and [/proc/meminfo] reports a memory total of
    0.  The unit conversions and the swap utilization never do. *)
Theorem add_memory_metrics_zero_division (mem_info : gmap string Z)
    (args : Namespace.t) (metrics : Metrics.t) :
  add_memory_metrics mem_info args metrics = Raise ZeroDivisionError ->
  Namespace.mem_util args = true /\ mem_info !! "MemTotal" = Some 0%Z.
Proof.
  unfold add_memory_metrics.
  destruct (MemData.init _ mem_info) as [mem|e] eqn:Hinit; simpl.
  2: { intros [= ->]. unfold MemData.init, getitem in Hinit.
       by destruct (mem_info !! "MemTotal"), (mem_info !! "MemFree"),
         (mem_info !! "Cached"), (mem_info !! "Buffers"),
         (mem_info !! "SwapTotal"), (mem_info !! "SwapFree"). }
  destruct (getitem SIZE_UNITS_CFG _) as [cfg|e] eqn:Hcfg; simpl.
  2: { intros [= ->]. unfold getitem in Hcfg.
       by destruct (SIZE_UNITS_CFG !! _). }
  assert (SizeUnit.div cfg <> 0%Z) as Hdiv.
  { unfold getitem in Hcfg.
    destruct (SIZE_UNITS_CFG !! _) as [cfg'|] eqn:Hl; [|done].
    injection Hcfg as <-. by eapply size_unit_div_nonzero. }
  destruct (Py.float_of_int (SizeUnit.div cfg)) as [fdiv|e] eqn:Hf; simpl.
  2: { intros [= ->]. unfold Py.float_of_int in Hf.
       destruct (binary_normalize _ _ _ _ _); by inversion Hf. }
  pose proof (fun bytes =>
                bytes_over_unit_no_zero_division bytes _ _ Hdiv Hf) as Hunit.
  destruct (add_if (Namespace.mem_util args) metrics _ _ _ _ _)
    as [m1|e] eqn:H1; simpl.
  2: { intros [= ->]. apply add_if_raises in H1 as [Hflag Hutil].
       split; [done|]. apply mem_util_zero_division in Hutil as [Hzero _].
       unfold MemData.init, getitem in Hinit.
       destruct (mem_info !! "MemTotal") as [total|], (mem_info !! "MemFree"),
         (mem_info !! "Cached"), (mem_info !! "Buffers"),
         (mem_info !! "SwapTotal"), (mem_info !! "SwapFree");
         simpl in Hinit; try done.
       injection Hinit as <-. simpl in Hzero. by rewrite Hzero. }
  destruct (add_if (Namespace.mem_used args) m1 _ _ _ _ _)
    as [m2|e] eqn:H2; simpl.
  2: { intros [= ->]. apply add_if_raises in H2 as [_ H2]. by apply Hunit in H2. }
  destruct (add_if (Namespace.mem_avail args) m2 _ _ _ _ _)
    as [m3|e] eqn:H3; simpl.
  2: { intros [= ->]. apply add_if_raises in H3 as [_ H3]. by apply Hunit in H3. }
  destruct (add_if (Namespace.swap_util args) m3 _ _ _ _ _)
    as [m4|e] eqn:H4; simpl.
  2: { intros [= ->]. apply add_if_raises in H4 as [_ H4].
       by apply swap_util_no_zero_division in H4. }
  intros H5. apply add_if_raises in H5 as [_ H5]. by apply Hunit in H5.
Qed.

Lemma add_memory_metrics_zero_division_witness :
  let mem_info : gmap string Z :=
    <["MemTotal" := 0%Z]> (<["MemFree" := 0%Z]>
    (<["Cached" := 0%Z]> (<["Buffers" := 0%Z]>
    (<["SwapTotal" := 0%Z]> (<["SwapFree" := 0%Z]> ∅))))) in
  mem_info !! "MemTotal" = Some 0%Z.
Proof.
  intros mem_info.
  apply (add_memory_metrics_zero_division mem_info
           {| Namespace.mem_util := true; Namespace.mem_used := true;
              Namespace.mem_avail := false; Namespace.swap_util := false;
              Namespace.swap_used := false;
              Namespace.mem_used_incl_cache_buff := false;
              Namespace.memory_units := "megabytes";
              Namespace.disk_path := None;
              Namespace.disk_space_util := false;
              Namespace.disk_space_used := false;
              Namespace.disk_space_avail := false;
              Namespace.disk_space_units := "gigabytes";
              Namespace.from_cron := false; Namespace.verbose := false;
              Namespace.aggregated := None; Namespace.auto_scaling := None;
              Namespace.verify := false; Namespace.version := false |}
           (Metrics.init "i-0abc" "t2.micro" "ami-17" None None)).
  reflexivity.
Defined.

Lemma add_memory_metrics_names_witness :
  let mem_info : gmap string Z :=
    <["MemTotal" := 4096%Z]> (<["MemFree" := 1024%Z]>
    (<["Cached" := 0%Z]> (<["Buffers" := 0%Z]>
    (<["SwapTotal" := 0%Z]> (<["SwapFree" := 0%Z]> ∅))))) in
  let args :=
    {| Namespace.mem_util := true; Namespace.mem_used := false;
       Namespace.mem_avail := false; Namespace.swap_util := true;
       Namespace.swap_used := false;
       Namespace.mem_used_incl_cache_buff := false;
       Namespace.memory_units := "megabytes";
       Namespace.disk_path := None;
       Namespace.disk_space_util := false;
       Namespace.disk_space_used := false;
       Namespace.disk_space_avail := false;
       Namespace.disk_space_units := "gigabytes";
       Namespace.from_cron := false; Namespace.verbose := false;
       Namespace.aggregated := None; Namespace.auto_scaling := None;
       Namespace.verify := false; Namespace.version := false |} in
  exists metrics',
    add_memory_metrics mem_info args
      (Metrics.init "i-0abc" "t2.micro" "ami-17" None None) = Ok metrics'
    /\ Metrics.names metrics' = ["MemoryUtilization"; "SwapUtilization"].
Proof.
  intros mem_info args.
  destruct (add_memory_metrics mem_info args
              (Metrics.init "i-0abc" "t2.micro" "ami-17" None None))
    as [metrics'|e] eqn:Hrun; [|vm_compute in Hrun; discriminate].
  exists metrics'. split; [done|].
  by destruct (add_memory_metrics_names mem_info args _ metrics' Hrun)
    as [-> _].
Defined.

Section DiskCollectFacts.

Lemma add_one_disk_ok args unit_name fdiv self disk self' :
  add_one_disk args unit_name fdiv self disk = Ok self' ->
  Metrics.names self'
  = Metrics.names self
    ++ repeated (points_per_call self) (disk_metric_names args)
  /\ Metrics.dimensions self'
     = Metrics.dimensions self
       ++ flat_map (fun _ => disk_dimensions self disk)
            (disk_metric_names args)
  /\ Metrics.dims self' = Metrics.dims self
  /\ points_per_call self' = points_per_call self.
Proof.
  unfold add_one_disk.
  destruct (add_if (Namespace.disk_space_util args) self _ _ _ _ _)
    as [m1|e] eqn:H1; simpl; [|done].
  destruct (add_if (Namespace.disk_space_used args) m1 _ _ _ _ _)
    as [m2|e] eqn:H2; simpl; [|done].
  intros H3.
  apply add_if_ok in H1 as (N1 & D1 & S1 & P1).
  apply add_if_ok in H2 as (N2 & D2 & S2 & P2).
  apply add_if_ok in H3 as (N3 & D3 & S3 & P3).
  rewrite P2, P1 in N3. rewrite P1 in N2.
  rewrite S2, S1 in D3. rewrite S1 in D2.
  split; [|split; [|split; congruence]].
  - rewrite N3, N2, N1. unfold disk_metric_names, repeated.
    by rewrite !flat_map_app, <- !app_assoc.
  - rewrite D3, D2, D1. unfold disk_metric_names, disk_dimensions.
    rewrite !flat_map_app, <- !app_assoc.
    by destruct (Namespace.disk_space_util args),
      (Namespace.disk_space_used args), (Namespace.disk_space_avail args);
      simpl; rewrite ?app_nil_r.
Qed.

Lemma for_each_disk_ok args unit_name fdiv disks : forall self self',
  for_each_disk args unit_name fdiv self disks = Ok self' ->
  Metrics.names self'
  = Metrics.names self
    ++ flat_map (fun _ => repeated (points_per_call self)
                            (disk_metric_names args)) disks
  /\ Metrics.dimensions self'
     = Metrics.dimensions self
       ++ flat_map (fun disk =>
                      flat_map (fun _ => disk_dimensions self disk)
                        (disk_metric_names args)) disks.
Proof.
  induction disks as [|disk disks IH]; intros self self'; simpl.
  - intros [= <-]. by rewrite !app_nil_r.
  - destruct (add_one_disk args unit_name fdiv self disk)
      as [m1|e] eqn:H1; simpl; [|done].
    intros Hrest. apply IH in Hrest as [N D].
    apply add_one_disk_ok in H1 as (N1 & D1 & S1 & P1).
    rewrite N, D, N1, D1, P1, <- !app_assoc. unfold disk_dimensions.
    by rewrite S1.
Qed.

Lemma add_one_disk_no_zero_division args unit_name div fdiv self disk :
  div <> 0%Z -> Py.float_of_int div = Ok fdiv ->
  add_one_disk args unit_name fdiv self disk <> Raise ZeroDivisionError.
Proof.
  intros Hdiv Hf.
  pose proof (fun bytes =>
                bytes_over_unit_no_zero_division bytes _ _ Hdiv Hf) as Hunit.
  unfold add_one_disk.
  destruct (add_if (Namespace.disk_space_util args) self _ _ _ _ _)
    as [m1|e] eqn:H1; simpl.
  2: { intros [= ->]. by apply add_if_raises in H1 as [_ H1]. }
  destruct (add_if (Namespace.disk_space_used args) m1 _ _ _ _ _)
    as [m2|e] eqn:H2; simpl.
  2: { intros [= ->]. apply add_if_raises in H2 as [_ H2].
       by apply Hunit in H2. }
  intros H3. apply add_if_raises in H3 as [_ H3]. by apply Hunit in H3.
Qed.

End DiskCollectFacts.

(** X20.  When [add_disk_metrics] returns, it has added, disk after disk
    in the order of the list, the metrics that the flags select, in the
    order [DiskSpaceUtilization], [DiskSpaceUsed], [DiskSpaceAvailable];
    every point of a disk carries the [MountPath] and the [Filesystem] of
    that disk next to its identifying dimension. *)
Theorem add_disk_metrics_points (disks : list Disk.t) (args : Namespace.t)
    (metrics metrics' : Metrics.t) :
  add_disk_metrics disks args metrics = Ok metrics' ->
  Metrics.names metrics'
  = Metrics.names metrics
    ++ flat_map (fun _ => repeated (points_per_call metrics)
                            (disk_metric_names args)) disks
  /\ Metrics.dimensions metrics'
     = Metrics.dimensions metrics
       ++ flat_map (fun disk =>
                      flat_map (fun _ => disk_dimensions metrics disk)
                        (disk_metric_names args)) disks
  /\ forall disk, disk ∈ disks ->
       Forall (fun d =>
                 d !! "MountPath"
                 = (if Py.truthy (Some (Disk.mount disk))
                    then Some (Disk.mount disk) else None)
                 /\ d !! "Filesystem"
                    = (if Py.truthy (Some (Disk.file_system disk))
                       then Some (Disk.file_system disk) else None))
         (disk_dimensions metrics disk).
Proof.
  unfold add_disk_metrics.
  destruct (getitem SIZE_UNITS_CFG _) as [cfg|e]; simpl; [|done].
  destruct (Py.float_of_int (SizeUnit.div cfg)) as [fdiv|e]; simpl; [|done].
  intros Hloop. apply for_each_disk_ok in Hloop as [N D].
  split; [exact N|]. split; [exact D|].
  intros disk _.
  pose proof (add_metric_keeps_common metrics "" "" (Py.Int 0)
                (Some (Disk.mount disk)) (Some (Disk.file_system disk)))
    as Hcommon.
  unfold appended in Hcommon. unfold Metrics.add_metric in Hcommon.
  by rewrite loop_dimensions, drop_app_length in Hcommon.
Qed.

(** X21.  [add_disk_metrics] never divides by zero, whatever the disks
    and the unit. *)
Theorem add_disk_metrics_no_zero_division (disks : list Disk.t)
    (args : Namespace.t) (metrics : Metrics.t) :
  add_disk_metrics disks args metrics <> Raise ZeroDivisionError.
Proof.
  unfold add_disk_metrics.
  destruct (getitem SIZE_UNITS_CFG _) as [cfg|e] eqn:Hcfg; simpl.
  2: { intros [= ->]. unfold getitem in Hcfg.
       by destruct (SIZE_UNITS_CFG !! _). }
  assert (SizeUnit.div cfg <> 0%Z) as Hdiv.
  { unfold getitem in Hcfg.
    destruct (SIZE_UNITS_CFG !! _) as [cfg'|] eqn:Hl; [|done].
    injection Hcfg as <-. by eapply size_unit_div_nonzero. }
  destruct (Py.float_of_int (SizeUnit.div cfg)) as [fdiv|e] eqn:Hf; simpl.
  2: { intros [= ->]. unfold Py.float_of_int in Hf.
       destruct (binary_normalize _ _ _ _ _); by inversion Hf. }
  revert metrics. induction disks as [|disk disks IH]; intros metrics; simpl;
    [done|].
  destruct (add_one_disk args _ fdiv metrics disk) as [m1|e] eqn:H1; simpl.
  - apply IH.
  - intros [= ->].
    by apply (add_one_disk_no_zero_division _ _ _ _ _ _ Hdiv Hf) in H1.
Qed.

(** ** Reading [/proc/meminfo] *)

Section StringFacts.

Lemma append_nil_r (s : string) : s +:+ "" = s.
Proof.
  induction s as [|c s IH]; [done|].
  change (String c (s +:+ "") = String c s). by rewrite IH.
Qed.

Lemma append_assoc (s1 s2 s3 : string) :
  (s1 +:+ s2) +:+ s3 = s1 +:+ (s2 +:+ s3).
Proof.
  induction s1 as [|c s1 IH]; [done|].
  change (String c ((s1 +:+ s2) +:+ s3) = String c (s1 +:+ (s2 +:+ s3))).
  by rewrite IH.
Qed.

Lemma append_snoc (s1 s2 : string) (c : ascii) :
  (s1 +:+ String c "") +:+ s2 = s1 +:+ String c s2.
Proof. by rewrite append_assoc. Qed.

Lemma all_in_app class (s1 s2 : string) :
  all_in class (s1 +:+ s2) = all_in class s1 && all_in class s2.
Proof.
  induction s1 as [|c s1 IH]; [done|].
  change (class c && all_in class (s1 +:+ s2)
          = class c && all_in class s1 && all_in class s2).
  by rewrite IH, andb_assoc.
Qed.

Lemma digit_not_space c : Str.isdigit c = true -> Str.isspace c = false.
Proof. by destruct c as [[] [] [] [] [] [] [] []]. Qed.

Lemma space_not_digit c : Str.isspace c = true -> Str.isdigit c = false.
Proof. by destruct c as [[] [] [] [] [] [] [] []]. Qed.

End StringFacts.

Section StarFacts.
Context {R : Type}.
Implicit Types (class : ascii -> bool) (k : string -> string -> option R).

(** A match of [class*] and the rest splits the text into a run of the
    class and what the rest matched. *)
Lemma star_sound class k s : forall taken r,
  Re.star class s taken k = Some r ->
  exists run rest,
    s = run +:+ rest /\ all_in class run = true
    /\ k (taken +:+ run) rest = Some r.
Proof.
  induction s as [|c s IH]; intros taken r; simpl.
  - intros H. exists "", "". repeat split; by rewrite ?append_nil_r.
  - destruct (class c) eqn:Hc.
    + destruct (Re.star class s (taken +:+ String c "") k) as [r'|] eqn:Hs.
      * intros [= ->]. apply IH in Hs as (run & rest & -> & Hrun & Hk).
        exists (String c run), rest. rewrite append_snoc in Hk.
        repeat split; [|done]. simpl. by rewrite Hc, Hrun.
      * intros H. exists "", (String c s).
        repeat split; by rewrite ?append_nil_r.
    + intros H. exists "", (String c s).
      repeat split; by rewrite ?append_nil_r.
Qed.

(** Where the text does not go on in the class, the run is empty. *)
Lemma star_stop class k s taken :
  starts_in class s = false -> Re.star class s taken k = k taken s.
Proof. destruct s as [|c s]; simpl; [done|]. by intros ->. Qed.

(** The longest run is taken when the rest matches after it. *)
Lemma star_longest class k run : forall rest taken r,
  all_in class run = true -> starts_in class rest = false ->
  k (taken +:+ run) rest = Some r ->
  Re.star class (run +:+ rest) taken k = Some r.
Proof.
  induction run as [|c run IH]; intros rest taken r Hrun Hrest Hk.
  - rewrite append_nil_r in Hk. change ("" +:+ rest) with rest.
    by rewrite star_stop.
  - change (String c run +:+ rest) with (String c (run +:+ rest)).
    simpl in Hrun. apply andb_true_iff in Hrun as [Hc Hrun].
    simpl. rewrite Hc.
    rewrite (IH rest (taken +:+ String c "") r); [done|done|done|].
    by rewrite append_snoc.
Qed.

(** One step back: the rest fails after the longest run and matches
    after the run without its last character. *)
Lemma star_back_one class k run c : forall rest taken r,
  all_in class run = true -> class c = true ->
  starts_in class rest = false ->
  k (taken +:+ run +:+ String c "") rest = None ->
  k (taken +:+ run) (String c rest) = Some r ->
  Re.star class (run +:+ String c rest) taken k = Some r.
Proof.
  induction run as [|x run IH]; intros rest taken r Hrun Hc Hrest Hno Hk.
  - change ("" +:+ String c rest) with (String c rest).
    rewrite append_nil_r in Hk. simpl. rewrite Hc.
    rewrite star_stop by done.
    change (taken +:+ "" +:+ String c "") with (taken +:+ ("" +:+ String c ""))
      in Hno.
    change ("" +:+ String c "") with (String c "") in Hno.
    by rewrite Hno.
  - change (String x run +:+ String c rest)
      with (String x (run +:+ String c rest)).
    simpl in Hrun. apply andb_true_iff in Hrun as [Hx Hrun].
    simpl. rewrite Hx.
    rewrite (IH rest (taken +:+ String x "") r); [done|done|done|done| |].
    + rewrite <- Hno. f_equal.
      by rewrite append_snoc.
    + by rewrite append_snoc.
Qed.

Lemma lit_sound literal : forall s rest,
  Re.lit literal s = Some rest -> s = literal +:+ rest.
Proof.
  induction literal as [|a literal IH]; intros s rest; simpl.
  - by intros [= ->].
  - destruct s as [|b s]; [done|].
    destruct (Ascii.eqb_spec a b) as [->|]; [|done].
    intros H. apply IH in H as ->. done.
Qed.

Lemma lit_mismatch (a b : ascii) (literal s : string) :
  a <> b -> Re.lit (String a literal) (String b s) = None.
Proof. intros Hne. simpl. by destruct (Ascii.eqb_spec a b). Qed.

Lemma lit_one (a : ascii) (s : string) :
  Re.lit (String a "") (String a s) = Some s.
Proof. simpl. by rewrite Ascii.eqb_refl. Qed.

Lemma lit_app literal rest : Re.lit literal (literal +:+ rest) = Some rest.
Proof.
  induction literal as [|a literal IH]; [done|].
  change (String a literal +:+ rest) with (String a (literal +:+ rest)).
  simpl. by rewrite Ascii.eqb_refl.
Qed.

End StarFacts.

(** X22.  What a matching line of [/proc/meminfo] looks like.  When the
    pattern matches with groups [key] and [value], the line is [key], a
    colon, white space, [value], white space, [kB] and anything; [key]
    has no white space and [value] has digits only.  A line without a
    colon or without [kB] is skipped. *)
Theorem meminfo_pattern_sound (line key value : string) :
  meminfo_pattern line = Some (key, value) ->
  exists gap1 gap2 rest,
    line = key +:+ ":" +:+ gap1 +:+ value +:+ gap2 +:+ "kB" +:+ rest
    /\ all_in Str.notspace key = true
    /\ all_in Str.isspace gap1 = true
    /\ all_in Str.isdigit value = true
    /\ all_in Str.isspace gap2 = true.
Proof.
  unfold meminfo_pattern. intros H.
  apply star_sound in H as (key' & s1 & -> & Hkey & H).
  apply bind_Some in H as (s2 & Hcolon & H).
  apply lit_sound in Hcolon as ->.
  apply star_sound in H as (gap1 & s3 & -> & Hgap1 & H).
  apply star_sound in H as (value' & s4 & -> & Hvalue & H).
  apply star_sound in H as (gap2 & s5 & -> & Hgap2 & H).
  apply bind_Some in H as (rest & Hunit & H).
  apply lit_sound in Hunit as ->. injection H as <- <-.
  exists gap1, gap2, rest. done.
Qed.

Lemma meminfo_pattern_sound_witness :
  exists gap1 gap2 rest,
    "SwapFree:        2097148 kB" +:+ String "010" ""
    = "SwapFree" +:+ ":" +:+ gap1 +:+ "2097148" +:+ gap2 +:+ "kB" +:+ rest
    /\ all_in Str.notspace "SwapFree" = true
    /\ all_in Str.isspace gap1 = true
    /\ all_in Str.isdigit "2097148" = true
    /\ all_in Str.isspace gap2 = true.
Proof.
  apply (meminfo_pattern_sound
           ("SwapFree:        2097148 kB" +:+ String "010" "")).
  reflexivity.
Defined.

(** X23.  A line of the usual form is read as written: a key without
    white space, a colon, at least one white space character, at least
    one digit, white space or none, and [kB] give the key as it stands,
    colons inside it included, and all the digits. *)
Theorem meminfo_pattern_standard (key gap1 value gap2 rest : string) :
  all_in Str.notspace key = true ->
  all_in Str.isspace gap1 = true -> gap1 <> "" ->
  all_in Str.isdigit value = true -> value <> "" ->
  all_in Str.isspace gap2 = true ->
  meminfo_pattern
    (key +:+ ":" +:+ gap1 +:+ value +:+ gap2 +:+ "kB" +:+ rest)
  = Some (key, value).
Proof.
  intros Hkey Hgap1 Hne1 Hvalue Hnev Hgap2. unfold meminfo_pattern.
  destruct gap1 as [|g gap1]; [done|]. destruct value as [|d value]; [done|].
  simpl in Hgap1, Hvalue.
  apply andb_true_iff in Hgap1 as [Hg Hgap1].
  apply andb_true_iff in Hvalue as [Hd Hvalue].
  change (":" +:+ String g gap1 +:+ String d value +:+ gap2 +:+ "kB" +:+ rest)
    with (String ":" (String g (gap1 +:+ String d value +:+ gap2 +:+ "kB"
                                  +:+ rest))).
  apply star_back_one; [done|done| | |].
  - simpl. unfold Str.notspace. by rewrite Hg.
  - cbv beta. rewrite lit_mismatch; [done|]. by intros <-.
  - change ("" +:+ key) with key. cbv beta.
    rewrite lit_one.
    change (Re.star Str.isspace
              (String g gap1 +:+ (String d value +:+ gap2 +:+ "kB" +:+ rest))
              "" (fun _ s3 =>
                    Re.star Str.isdigit s3 "" (fun value s4 =>
                      Re.star Str.isspace s4 "" (fun _ s5 =>
                        _ ← Re.lit "kB" s5; Some (key, value))))
            = Some (key, String d value)).
    apply star_longest; [by simpl; rewrite Hg, Hgap1| |].
    { simpl. by apply digit_not_space. }
    apply star_longest; [by simpl; rewrite Hd, Hvalue| |].
    { destruct gap2 as [|g2 gap2]; [done|]. simpl in *.
      apply andb_true_iff in Hgap2 as [Hg2 _]. by apply space_not_digit. }
    apply star_longest; [done|done|].
    by rewrite lit_app.
Qed.

Lemma meminfo_pattern_standard_witness :
  meminfo_pattern ("MemTotal" +:+ ":" +:+ "       " +:+ "16384" +:+ " "
                   +:+ "kB" +:+ String "010" "")
  = Some ("MemTotal", "16384").
Proof. by apply meminfo_pattern_standard. Defined.

Section GatherFacts.
Local Open Scope Z_scope.

Lemma digits_value_nonneg s : forall acc n,
  0 <= acc -> Str.digits_value acc s = Some n -> 0 <= n.
Proof.
  induction s as [|c s IH]; intros acc n Hacc; simpl.
  - intros [= <-]. done.
  - destruct (Str.isdigit c) eqn:Hc; [|done]. apply IH.
    unfold Str.isdigit in Hc. apply andb_true_iff in Hc as [Hlo _].
    apply N.leb_le in Hlo. lia.
Qed.

Lemma digits_value_all s : forall acc,
  all_in Str.isdigit s = true -> is_Some (Str.digits_value acc s).
Proof.
  induction s as [|c s IH]; intros acc; simpl; [by eexists|].
  intros H. apply andb_true_iff in H as [-> Hs]. by apply IH.
Qed.

(** [int] on the digits that the pattern captured. *)
Lemma int_digits value :
  all_in Str.isdigit value = true ->
  (value = "" /\ Str.int value = Raise (ValueError (Str.invalid_literal "")))
  \/ exists n, 0 <= n /\ Str.int value = Ok n.
Proof.
  intros Hall. destruct value as [|c value]; [by left|]. right.
  destruct (digits_value_all (String c value) 0 Hall) as [n Hn].
  exists n. split; [by eapply (digits_value_nonneg _ 0)|].
  unfold Str.int.
  assert (c <> "-"%char /\ c <> "+"%char) as [Hm Hp].
  { simpl in Hall. apply andb_true_iff in Hall as [Hc _].
    split; intros ->; done. }
  assert (match String c value with
          | String "-" ds => Z.opp <$> Str.unsigned ds
          | String "+" ds => Str.unsigned ds
          | _ => Str.unsigned (String c value)
          end = Str.unsigned (String c value)) as ->.
  { destruct c as [[] [] [] [] [] [] [] []]; done. }
  unfold Str.unsigned. by rewrite Hn.
Qed.

Lemma gather_lines_app lines1 : forall lines2 meminfo,
  gather_lines (lines1 ++ lines2) meminfo
  = (meminfo' ← gather_lines lines1 meminfo; gather_lines lines2 meminfo').
Proof.
  induction lines1 as [|line lines1 IH]; intros lines2 meminfo; [done|].
  simpl. destruct (meminfo_pattern line) as [[key value]|]; [|apply IH].
  destruct (Str.int value) as [n|e]; simpl; [apply IH|done].
Qed.

Lemma gather_lines_kilobytes lines : forall meminfo meminfo',
  kilobytes meminfo -> gather_lines lines meminfo = Ok meminfo' ->
  kilobytes meminfo'.
Proof.
  induction lines as [|line lines IH]; intros meminfo meminfo' Hinv; simpl.
  - by intros [= <-].
  - destruct (meminfo_pattern line) as [[key value]|] eqn:Hline;
      [|by apply IH].
    apply meminfo_pattern_sound in Hline as (_ & _ & _ & _ & _ & _ & Hd & _).
    destruct (int_digits value Hd) as [[-> ->]|(n & Hn & ->)]; [done|].
    simpl. apply IH. intros k v.
    destruct (decide (key = k)) as [<-|Hne].
    + rewrite lookup_insert_eq. intros [= <-]. by exists n.
    + rewrite lookup_insert_ne by done. apply Hinv.
Qed.

End GatherFacts.

(** X24.  Every value that [__gather_mem_info] returns is a byte count: a
    number that is not negative, times 1024. *)
Theorem gather_mem_info_kilobytes (lines : list string)
    (meminfo : gmap string Z) :
  __gather_mem_info lines = Ok meminfo -> kilobytes meminfo.
Proof.
  apply gather_lines_kilobytes. intros key v H. by rewrite lookup_empty in H.
Qed.

Lemma gather_mem_info_kilobytes_witness :
  kilobytes (<["MemTotal" := 16777216%Z]> ∅).
Proof.
  apply (gather_mem_info_kilobytes
           ["MemTotal:       16384 kB" +:+ String "010" ""]).
  reflexivity.
Defined.

(** X25.  The last line of the usual form for a key decides its value:
    after any lines that were read without error, such a line sets the
    key to 1024 times its number, whatever the key held before, and
    leaves the other keys alone. *)
Theorem gather_mem_info_last_wins (lines : list string)
    (meminfo : gmap string Z) (key gap1 value gap2 rest : string) (n : Z) :
  __gather_mem_info lines = Ok meminfo ->
  all_in Str.notspace key = true ->
  all_in Str.isspace gap1 = true -> gap1 <> "" ->
  all_in Str.isdigit value = true -> value <> "" ->
  all_in Str.isspace gap2 = true ->
  Str.digits_value 0 value = Some n ->
  __gather_mem_info
    (lines ++ [key +:+ ":" +:+ gap1 +:+ value +:+ gap2 +:+ "kB" +:+ rest])
  = Ok (<[key := (n * 1024)%Z]> meminfo).
Proof.
  intros Hlines Hkey Hgap1 Hne1 Hvalue Hnev Hgap2 Hn.
  unfold __gather_mem_info in *. rewrite gather_lines_app, Hlines. simpl.
  rewrite meminfo_pattern_standard by done.
  destruct (int_digits value Hvalue) as [[-> _]|(n' & _ & Hint)]; [done|].
  rewrite Hint. simpl. do 2 f_equal.
  unfold Str.int in Hint.
  destruct value as [|c value]; [done|].
  assert (match String c value with
          | String "-" ds => Z.opp <$> Str.unsigned ds
          | String "+" ds => Str.unsigned ds
          | _ => Str.unsigned (String c value)
          end = Some n) as Heq.
  { simpl in Hvalue. apply andb_true_iff in Hvalue as [Hc _].
    destruct c as [[] [] [] [] [] [] [] []]; try done; exact Hn. }
  rewrite Heq in Hint. by injection Hint as ->.
Qed.

Lemma gather_mem_info_last_wins_witness :
  __gather_mem_info
    (["MemFree:  1 kB"] ++
     ["MemFree" +:+ ":" +:+ "  " +:+ "2" +:+ " " +:+ "kB" +:+ ""])
  = Ok (<["MemFree" := (2 * 1024)%Z]> (<["MemFree" := 1024%Z]> ∅)).
Proof.
  by apply (gather_mem_info_last_wins ["MemFree:  1 kB"]
              (<["MemFree" := 1024%Z]> ∅)).
Defined.

Lemma meminfo_pattern_no_number (key gap rest : string) :
  all_in Str.notspace key = true ->
  all_in Str.isspace gap = true -> gap <> "" ->
  meminfo_pattern (key +:+ ":" +:+ gap +:+ "kB" +:+ rest) = Some (key, "").
Proof.
  intros Hkey Hgap Hne. unfold meminfo_pattern.
  destruct gap as [|g gap]; [done|].
  simpl in Hgap. apply andb_true_iff in Hgap as [Hg Hgap].
  change (":" +:+ String g gap +:+ "kB" +:+ rest)
    with (String ":" (String g (gap +:+ "kB" +:+ rest))).
  apply star_back_one; [done|done| | |].
  - simpl. unfold Str.notspace. by rewrite Hg.
  - cbv beta. rewrite lit_mismatch; [done|]. by intros <-.
  - change ("" +:+ key) with key. cbv beta. rewrite lit_one.
    change (Re.star Str.isspace (String g gap +:+ ("kB" +:+ rest)) ""
              (fun _ s3 =>
                 Re.star Str.isdigit s3 "" (fun value s4 =>
                   Re.star Str.isspace s4 "" (fun _ s5 =>
                     _ ← Re.lit "kB" s5; Some (key, value))))
            = Some (key, "")).
    apply star_longest; [by simpl; rewrite Hg, Hgap|done|].
    rewrite star_stop by done. rewrite star_stop by done.
    by rewrite lit_app.
Qed.

(** X26.  A line with the unit and no number stops the reading: the
    pattern matches it with an empty value, [int('')] raises
    [ValueError], and neither [__gather_mem_info] nor [MemData] returns,
    whatever the lines after it. *)
Theorem gather_mem_info_no_number (before after : list string)
    (meminfo : gmap string Z) (key gap rest : string) (flag : bool) :
  __gather_mem_info before = Ok meminfo ->
  all_in Str.notspace key = true ->
  all_in Str.isspace gap = true -> gap <> "" ->
  let lines := before ++ (key +:+ ":" +:+ gap +:+ "kB" +:+ rest) :: after in
  __gather_mem_info lines = Raise (ValueError (Str.invalid_literal ""))
  /\ MemData_new flag lines = Raise (ValueError (Str.invalid_literal "")).
Proof.
  intros Hbefore Hkey Hgap Hne lines.
  assert (__gather_mem_info lines
          = Raise (ValueError (Str.invalid_literal ""))) as H.
  { subst lines. unfold __gather_mem_info in *.
    rewrite gather_lines_app, Hbefore. simpl.
    by rewrite meminfo_pattern_no_number. }
  split; [done|]. unfold MemData_new. by rewrite H.
Qed.

Lemma gather_mem_info_no_number_witness :
  MemData_new false ([] ++ ("Bogus" +:+ ":" +:+ " " +:+ "kB" +:+ "") :: [])
  = Raise (ValueError "invalid literal for int() with base 10: ''").
Proof.
  by apply (gather_mem_info_no_number [] [] ∅ "Bogus" " " "" false).
Defined.

(** ** Reading the table of [df] *)

Section SplitFacts.

Lemma all_in_impl (p q : ascii -> bool) (s : string) :
  (forall c, p c = true -> q c = true) ->
  all_in p s = true -> all_in q s = true.
Proof.
  intros Hpq. induction s as [|c s IH]; simpl; [done|].
  intros H. apply andb_true_iff in H as [Hc Hs].
  by rewrite (Hpq c Hc), IH.
Qed.

Lemma notspace_no_break c : Str.notspace c = true -> no_break c = true.
Proof. by destruct c as [[] [] [] [] [] [] [] []]. Qed.

Lemma append_not_nil (s1 s2 : string) : s2 <> "" -> s1 +:+ s2 <> "".
Proof.
  destruct s1 as [|c s1]; [done|]. intros _.
  change (String c (s1 +:+ s2) <> ""). done.
Qed.

Lemma split_go_word (w : string) : forall word s,
  all_in Str.notspace w = true ->
  Str.split_go word (w +:+ s) = Str.split_go (word +:+ w) s.
Proof.
  induction w as [|c w IH]; intros word s Hw.
  - by rewrite append_nil_r.
  - change (String c w +:+ s) with (String c (w +:+ s)).
    simpl in Hw. apply andb_true_iff in Hw as [Hc Hw].
    unfold Str.notspace in Hc. apply negb_true_iff in Hc.
    simpl. rewrite Hc. rewrite IH by done. by rewrite append_snoc.
Qed.

Lemma split_go_blank (gap : string) : forall s,
  all_in Str.isspace gap = true ->
  Str.split_go "" (gap +:+ s) = Str.split_go "" s.
Proof.
  induction gap as [|c gap IH]; intros s Hgap; [done|].
  change (String c gap +:+ s) with (String c (gap +:+ s)).
  simpl in Hgap. apply andb_true_iff in Hgap as [Hc Hgap].
  simpl. rewrite Hc. by apply IH.
Qed.

Lemma split_go_gap (word gap s : string) :
  word <> "" -> gap <> "" -> all_in Str.isspace gap = true ->
  Str.split_go word (gap +:+ s) = word :: Str.split_go "" s.
Proof.
  intros Hword Hne Hgap. destruct gap as [|c gap]; [done|].
  change (String c gap +:+ s) with (String c (gap +:+ s)).
  simpl in Hgap. apply andb_true_iff in Hgap as [Hc Hgap].
  simpl. rewrite Hc. destruct word; [done|].
  by rewrite split_go_blank.
Qed.

Lemma split_go_tail (word tail : string) :
  word <> "" -> all_in Str.isspace tail = true ->
  Str.split_go word tail = [word].
Proof.
  intros Hword Htail. destruct tail as [|c tail].
  - by destruct word.
  - rewrite <- (append_nil_r (String c tail)).
    rewrite split_go_gap by done. done.
Qed.

Lemma is_field_spec f :
  is_field f = true -> f <> "" /\ all_in Str.notspace f = true.
Proof.
  unfold is_field. intros H. apply andb_true_iff in H as [Hne Hall].
  split; [|done]. intros ->. done.
Qed.

Lemma is_gap_spec g :
  is_gap g = true ->
  g <> "" /\ all_in Str.isspace g = true /\ all_in no_break g = true.
Proof.
  unfold is_gap. intros H. apply andb_true_iff in H as [Hne Hall].
  split; [by intros ->|]. split.
  - eapply all_in_impl; [|exact Hall]. intros c Hc.
    by apply andb_true_iff in Hc as [? _].
  - eapply all_in_impl; [|exact Hall]. intros c Hc.
    by apply andb_true_iff in Hc as [_ ?].
Qed.

Lemma split_go_cells cells : forall word tail,
  word <> "" ->
  forallb (fun cell => is_gap cell.1 && is_field cell.2) cells = true ->
  all_in Str.isspace tail = true ->
  Str.split_go word (cells_text cells tail) = word :: map snd cells.
Proof.
  induction cells as [|[gap field] cells IH]; intros word tail Hword Hcells
    Htail; simpl.
  - by apply split_go_tail.
  - simpl in Hcells. apply andb_true_iff in Hcells as [Hcell Hcells].
    apply andb_true_iff in Hcell as [Hgap Hfield].
    apply is_gap_spec in Hgap as (Hgne & Hgsp & _).
    apply is_field_spec in Hfield as [Hfne Hfall].
    rewrite split_go_gap by done.
    rewrite split_go_word by done. change ("" +:+ field) with field.
    f_equal. by apply IH.
Qed.

(** [split()] gives back the fields of a row. *)
Lemma split_row row :
  row_ok row = true -> Str.split (row_text row) = row_fields row.
Proof.
  unfold row_ok, row_text, row_fields, Str.split. intros H.
  apply andb_true_iff in H as [H Htail].
  apply andb_true_iff in H as [Hfirst Hcells].
  apply is_field_spec in Hfirst as [Hne Hall].
  rewrite split_go_word by done. change ("" +:+ first_field row)
    with (first_field row).
  apply split_go_cells; [done|done|].
  eapply all_in_impl; [|exact Htail]. intros c Hc.
  by apply andb_true_iff in Hc as [? _].
Qed.

Lemma cells_text_no_break cells : forall tail,
  forallb (fun cell => is_gap cell.1 && is_field cell.2) cells = true ->
  all_in no_break tail = true ->
  all_in no_break (cells_text cells tail) = true.
Proof.
  induction cells as [|[gap field] cells IH]; intros tail Hcells Htail;
    simpl; [done|].
  simpl in Hcells. apply andb_true_iff in Hcells as [Hcell Hcells].
  apply andb_true_iff in Hcell as [Hgap Hfield].
  apply is_gap_spec in Hgap as (_ & _ & Hgb).
  apply is_field_spec in Hfield as [_ Hfall].
  rewrite !all_in_app, Hgb, IH by done.
  rewrite (all_in_impl _ _ field notspace_no_break Hfall). done.
Qed.

Lemma row_text_no_break row :
  row_ok row = true -> all_in no_break (row_text row) = true.
Proof.
  unfold row_ok, row_text. intros H.
  apply andb_true_iff in H as [H Htail].
  apply andb_true_iff in H as [Hfirst Hcells].
  apply is_field_spec in Hfirst as [_ Hall].
  rewrite all_in_app.
  rewrite (all_in_impl _ _ _ notspace_no_break Hall).
  apply cells_text_no_break; [done|].
  eapply all_in_impl; [|exact Htail]. intros c Hc.
  by apply andb_true_iff in Hc as [_ ?].
Qed.

Lemma splitlines_go_char c line s :
  no_break c = true ->
  Str.splitlines_go line (String c s)
  = Str.splitlines_go (line +:+ String c "") s.
Proof. by destruct c as [[] [] [] [] [] [] [] []]. Qed.

Lemma splitlines_go_line l : forall line s,
  all_in no_break l = true ->
  Str.splitlines_go line (l +:+ String "010" s)
  = (line +:+ l) :: Str.splitlines_go "" s.
Proof.
  induction l as [|c l IH]; intros line s Hl.
  - by rewrite append_nil_r.
  - change (String c l +:+ String "010" s)
      with (String c (l +:+ String "010" s)).
    simpl in Hl. apply andb_true_iff in Hl as [Hc Hl].
    rewrite splitlines_go_char by done.
    rewrite IH by done. by rewrite append_snoc.
Qed.

(** [splitlines()] gives back lines that were closed by line feeds. *)
Lemma splitlines_unlines lines :
  Forall (fun l => all_in no_break l = true) lines ->
  Str.splitlines (unlines lines) = lines.
Proof.
  unfold Str.splitlines. induction 1 as [|l lines Hl _ IH]; [done|].
  simpl. rewrite splitlines_go_line by done.
  change ("" +:+ l) with l. by rewrite IH.
Qed.

End SplitFacts.

(** X27.  [get_disk_info] reads a table as [df] prints it.  Let the
    command print a header line and then rows, each row made of fields
    without white space, set apart by blanks or tabs, and closed by a line
    feed.  Then the header is skipped and the disks are those of the rows,
    in order, each from the fields of its row. *)
Theorem get_disk_info_table (popen_read : string -> string)
    (paths : list string) (header : string) (rows : list table_row) :
  all_in no_break header = true ->
  Forall (fun row => row_ok row = true) rows ->
  popen_read (DF_COMMAND paths) = unlines (header :: map row_text rows) ->
  get_disk_info popen_read paths = disks_of_lines (map row_fields rows).
Proof.
  intros Hheader Hrows Hout. unfold get_disk_info. rewrite Hout.
  rewrite splitlines_unlines.
  - simpl. rewrite drop_0. f_equal. rewrite map_map.
    apply map_ext_Forall. eapply Forall_impl; [exact Hrows|].
    intros row Hrow. by apply split_row.
  - constructor; [done|]. apply Forall_map.
    eapply Forall_impl; [exact Hrows|]. intros row Hrow.
    by apply row_text_no_break.
Qed.

Lemma get_disk_info_table_witness :
  get_disk_info (fun _ => DF_EXAMPLE) ["/"]
  = disks_of_lines
      [["/dev/xvda1"; "8123812"; "1234567"; "6889245"; "16%"; "/"]].
Proof.
  apply (get_disk_info_table (fun _ => DF_EXAMPLE) ["/"]
           "Filesystem     1024-blocks    Used Available Capacity Mounted on"
           [{| first_field := "/dev/xvda1";
               cells := [("        ", "8123812"); (" ", "1234567");
                         ("   ", "6889245"); ("      ", "16%"); (" ", "/")];
               tail := "" |}]).
  - reflexivity.
  - repeat constructor.
  - reflexivity.
Defined.

Section DiskLineFacts.

Lemma disk_of_line_ok line disk :
  disk_of_line line = DfOk disk -> disk_reads line disk.
Proof.
  unfold disk_of_line, df_index, disk_reads.
  destruct line as [|fs [|f1 [|f2 [|f3 [|f4 [|mount extra]]]]]]; try done.
  simpl.
  destruct (Str.int f1) as [total|e] eqn:H1; simpl; [|done].
  destruct (Str.int f2) as [used|e] eqn:H2; simpl; [|done].
  destruct (Str.int f3) as [avail|e] eqn:H3; simpl; [|done].
  destruct (Disk.init _ _ _ _ _) as [d|e] eqn:Hd; simpl; [|done].
  intros [= <-]. by exists fs, f1, f2, f3, f4, mount, extra, total, used, avail.
Qed.

(** [IndexError] comes from a line with fewer than six fields, and from
    nothing else. *)
Lemma disk_of_line_index_error line :
  disk_of_line line = DfIndexError <-> (length line < 6)%nat.
Proof.
  unfold disk_of_line, df_index.
  destruct line as [|fs [|f1 [|f2 [|f3 [|f4 [|mount extra]]]]]]; simpl;
    try (split; [intros _; lia|done]).
  split; [|lia].
  destruct (Str.int f1); simpl; [|done].
  destruct (Str.int f2); simpl; [|done].
  destruct (Str.int f3); simpl; [|done].
  by destruct (Disk.init _ _ _ _ _).
Qed.

Lemma disks_of_lines_ok lines : forall disks,
  disks_of_lines lines = DfOk disks -> Forall2 disk_reads lines disks.
Proof.
  induction lines as [|line lines IH]; intros disks; simpl.
  - intros [= <-]. constructor.
  - destruct (disk_of_line line) as [disk| |e] eqn:Hline; simpl; try done.
    destruct (disks_of_lines lines) as [disks'| |e]; simpl; try done.
    intros [= <-]. constructor; [by apply disk_of_line_ok|by apply IH].
Qed.

Lemma disks_of_lines_index_error lines :
  disks_of_lines lines = DfIndexError
  <-> exists before line after disks,
        lines = before ++ line :: after
        /\ disks_of_lines before = DfOk disks
        /\ (length line < 6)%nat.
Proof.
  induction lines as [|line lines IH]; simpl.
  - split; [done|]. intros (before & l & after & _ & H & _).
    by destruct before.
  - destruct (disk_of_line line) as [disk| |e] eqn:Hline; simpl.
    + destruct (disks_of_lines lines) as [disks'| |e] eqn:Hrest; simpl.
      * split; [done|].
        intros ([|l0 before] & l & after & disks & Heq & Hb & Hshort).
        -- injection Heq as <- _.
           apply disk_of_line_index_error in Hshort. congruence.
        -- injection Heq as <- ->.
           assert (@DfOk (list Disk.t) disks' = DfIndexError) as Habs; [|done].
           apply IH. exists before, l, after.
           simpl in Hb. rewrite Hline in Hb. simpl in Hb.
           destruct (disks_of_lines before) as [db| |]; try done.
           by exists db.
      * split; [|done]. intros _.
        destruct IH as [IH _].
        destruct (IH eq_refl) as (before & l & after & disks & -> & Hb & Hs).
        exists (line :: before), l, after, (disk :: disks).
        split; [done|]. split; [|done]. simpl. by rewrite Hline, Hb.
      * split; [done|].
        intros ([|l0 before] & l & after & disks & Heq & Hb & Hshort).
        -- injection Heq as <- _.
           apply disk_of_line_index_error in Hshort. congruence.
        -- injection Heq as <- ->.
           assert (@DfRaise (list Disk.t) e = DfIndexError) as Habs; [|done].
           apply IH. exists before, l, after.
           simpl in Hb. rewrite Hline in Hb. simpl in Hb.
           destruct (disks_of_lines before) as [db| |]; try done.
           by exists db.
    + split; [|done]. intros _. exists [], line, lines, [].
      split; [done|]. split; [done|]. by apply disk_of_line_index_error.
    + split; [done|].
      intros ([|l0 before] & l & after & disks & Heq & Hb & Hshort).
      * injection Heq as <- _.
        apply disk_of_line_index_error in Hshort. congruence.
      * injection Heq as <- ->. simpl in Hb. by rewrite Hline in Hb.
Qed.

End DiskLineFacts.

(** X28.  When [get_disk_info] returns, it returns one disk for each line
    after the first, in order.  The file system is the first field of the
    line and the mount the sixth one, whatever fields follow; the used and
    the available bytes are 1024 times the third and the fourth field. *)
Theorem get_disk_info_ok (popen_read : string -> string)
    (paths : list string) (disks : list Disk.t) :
  get_disk_info popen_read paths = DfOk disks ->
  let lines := Str.splitlines (popen_read (DF_COMMAND paths)) in
  length disks = (length lines - 1)%nat
  /\ Forall2 disk_reads (drop 1 (map Str.split lines)) disks
  /\ Forall2 (fun line disk =>
                exists used avail,
                  line !! 0%nat = Some (Disk.file_system disk)
                  /\ line !! 5%nat = Some (Disk.mount disk)
                  /\ Str.int <$> line !! 2%nat = Some (Ok used)
                  /\ Str.int <$> line !! 3%nat = Some (Ok avail)
                  /\ Disk.used disk = (used * 1024)%Z
                  /\ Disk.avail disk = (avail * 1024)%Z)
       (drop 1 (map Str.split lines)) disks.
Proof.
  intros H lines. unfold get_disk_info in H. apply disks_of_lines_ok in H.
  fold lines in H. split; [|split; [exact H|]].
  - apply Forall2_length in H. rewrite length_drop, length_map in H. lia.
  - eapply Forall2_impl; [exact H|]. intros line disk Hreads.
    destruct Hreads as (fs & f1 & f2 & f3 & f4 & mount & extra & total & used
                        & avail & -> & H1 & H2 & H3 & Hinit).
    destruct (disk_init_fields mount fs (total * 1024) (used * 1024)
                (avail * 1024) disk Hinit) as (-> & -> & -> & ->).
    exists used, avail. simpl. by rewrite H2, H3.
Qed.

Lemma get_disk_info_ok_witness :
  exists disk,
    get_disk_info (fun _ => DF_EXAMPLE) ["/"] = DfOk [disk]
    /\ Disk.mount disk = "/" /\ Disk.used disk = (1234567 * 1024)%Z.
Proof.
  destruct (get_disk_info (fun _ => DF_EXAMPLE) ["/"]) as [disks| |e] eqn:Hrun;
    [|vm_compute in Hrun; discriminate..].
  destruct (get_disk_info_ok (fun _ => DF_EXAMPLE) ["/"] disks Hrun)
    as (Hlen & _ & Hfields).
  destruct disks as [|disk [|disk' disks]]; [done| |done].
  exists disk. split; [done|].
  apply Forall2_cons_1 in Hfields
    as [(used & avail & _ & Hm & Hu & _ & Hused & _) _].
  assert (Some "/" = Some (Disk.mount disk)) as [= <-] by exact Hm.
  assert (Some (Ok 1234567%Z) = Some (Ok used)) as [= <-] by exact Hu.
  by split.
Defined.

(** X29.  [get_disk_info] raises [IndexError] exactly when, among the
    lines after the first, one with fewer than six fields, an empty line
    for instance, comes after lines that all gave a disk. *)
Theorem get_disk_info_index_error (popen_read : string -> string)
    (paths : list string) :
  get_disk_info popen_read paths = DfIndexError
  <-> exists before line after disks,
        drop 1
          (map Str.split (Str.splitlines (popen_read (DF_COMMAND paths))))
        = before ++ line :: after
        /\ disks_of_lines before = DfOk disks
        /\ (length line < 6)%nat.
Proof. unfold get_disk_info. apply disks_of_lines_index_error. Qed.

Lemma get_disk_info_index_error_witness :
  get_disk_info (fun _ => unlines ["Filesystem 1024-blocks"; ""]) ["/"]
  = DfIndexError.
Proof.
  apply (get_disk_info_index_error
           (fun _ => unlines ["Filesystem 1024-blocks"; ""]) ["/"]).
  exists [], [], [], []. split; [reflexivity|]. split; [reflexivity|].
  simpl. lia.
Defined.

Lemma mem_util_zero_division_witness :
  MemData.mem_util
    {| MemData.mem_used_incl_cache_buff := true;
       MemData.mem_total := 0; MemData.mem_free := 0;
       MemData.mem_cached := 0; MemData.mem_buffers := 0;
       MemData.swap_total := 1024; MemData.swap_free := 1024 |}
  = Raise ZeroDivisionError.
Proof.
  apply (mem_util_zero_division
           {| MemData.mem_used_incl_cache_buff := true;
              MemData.mem_total := 0; MemData.mem_free := 0;
              MemData.mem_cached := 0; MemData.mem_buffers := 0;
              MemData.swap_total := 1024; MemData.swap_free := 1024 |}).
  split; reflexivity.
Defined.

Lemma add_disk_metrics_points_witness :
  let args :=
    {| Namespace.mem_util := false; Namespace.mem_used := false;
       Namespace.mem_avail := false; Namespace.swap_util := false;
       Namespace.swap_used := false;
       Namespace.mem_used_incl_cache_buff := false;
       Namespace.memory_units := "megabytes";
       Namespace.disk_path := Some ["/"];
       Namespace.disk_space_util := true;
       Namespace.disk_space_used := false;
       Namespace.disk_space_avail := true;
       Namespace.disk_space_units := "gigabytes";
       Namespace.from_cron := false; Namespace.verbose := false;
       Namespace.aggregated := None; Namespace.auto_scaling := None;
       Namespace.verify := false; Namespace.version := false |} in
  let disk := {| Disk.mount := "/"; Disk.file_system := "/dev/xvda1";
                 Disk.used := 1024; Disk.avail := 3072;
                 Disk.util := Py.Int 0 |} in
  exists metrics',
    add_disk_metrics [disk] args
      (Metrics.init "i-0abc" "t2.micro" "ami-17" None None) = Ok metrics'
    /\ Metrics.names metrics' = ["DiskSpaceUtilization"; "DiskSpaceAvailable"].
Proof.
  intros args disk.
  destruct (add_disk_metrics [disk] args
              (Metrics.init "i-0abc" "t2.micro" "ami-17" None None))
    as [metrics'|e] eqn:Hrun; [|vm_compute in Hrun; discriminate].
  exists metrics'. split; [done|].
  by destruct (add_disk_metrics_points [disk] args _ metrics' Hrun)
    as (-> & _ & _).
Defined.
